(** * Respiratory sinus arrhythmia

    A shallow embedding of [neurokit2/ecg/ecg_rsa.py]: the cycle extractor
    [_ecg_rsa_cycles], the peak-to-trough estimator [_ecg_rsa_p2t], the
    Porges-Bohrer estimator [_ecg_rsa_pb], the input formatter
    [_ecg_rsa_formatinput] and the entry point [ecg_rsa].

    Conventions of the embedding.
    - A numpy [int64] index is a [Z]: the indices of this module are row
      positions of an in-memory table, so neither they nor their differences
      leave the 64-bit range.
    - A numpy [float64] is a value of [F64.t]: not-a-number, the two
      infinities, or a real.  Arithmetic is exact: rounding and overflow of
      the finite values are abstracted, the special values follow IEEE 754.
    - A data frame is an ordered list of named columns and carries the
      default positional index (rows 0, 1, ...), as the frames that
      [ecg_process] and [rsp_process] return do.
    - A Python exception is a value of [exn]; a function that may raise
      returns a [result]; what [print] writes is kept in a log.
    - The functions imported from other modules of the package
      ([signal_filter], [signal_resample], ...) are parameters. *)

From Stdlib Require Import ZArith List String Ascii Bool Arith DecimalString.
From Stdlib Require Import Reals Lra Lia QArith Qround.
From Stdlib Require Import Sorting.Sorted Sorting.Permutation.
Import ListNotations.

Local Open Scope string_scope.
Local Open Scope list_scope.
Local Open Scope Z_scope.

(* ================================================================= *)
(** ** float64 *)

Module F64.

Inductive t : Type :=
| NaN
| PInf
| NInf
| Fin (r : R).

(** Sign of a real, as the three-way test the special cases need. *)
Definition Rsign (r : R) : comparison :=
  match total_order_T r 0 with
  | inleft (left _) => Lt
  | inleft (right _) => Eq
  | inright _ => Gt
  end.

Definition of_Z (z : Z) : t := Fin (IZR z).
Definition of_nat (n : nat) : t := Fin (INR n).

(** [np.isnan] *)
Definition isnan (x : t) : bool :=
  match x with NaN => true | _ => false end.

Definition neg (x : t) : t :=
  match x with
  | NaN => NaN
  | PInf => NInf
  | NInf => PInf
  | Fin r => Fin (- r)
  end.

Definition add (x y : t) : t :=
  match x, y with
  | NaN, _ | _, NaN => NaN
  | PInf, NInf | NInf, PInf => NaN
  | PInf, _ | _, PInf => PInf
  | NInf, _ | _, NInf => NInf
  | Fin a, Fin b => Fin (a + b)
  end.

Definition sub (x y : t) : t := add x (neg y).

Definition mul (x y : t) : t :=
  match x, y with
  | NaN, _ | _, NaN => NaN
  | Fin a, Fin b => Fin (a * b)
  | PInf, PInf | NInf, NInf => PInf
  | PInf, NInf | NInf, PInf => NInf
  | PInf, Fin b | Fin b, PInf =>
      match Rsign b with Eq => NaN | Lt => NInf | Gt => PInf end
  | NInf, Fin b | Fin b, NInf =>
      match Rsign b with Eq => NaN | Lt => PInf | Gt => NInf end
  end.

(** True division.  Every divisor of this module is converted from an
    integer, so a zero divisor is [+0.0]. *)
Definition div (x y : t) : t :=
  match x, y with
  | NaN, _ | _, NaN => NaN
  | Fin a, Fin b =>
      match Rsign b with
      | Eq => match Rsign a with Eq => NaN | Lt => NInf | Gt => PInf end
      | _ => Fin (a / b)
      end
  | Fin _, (PInf | NInf) => Fin 0
  | (PInf | NInf), (PInf | NInf) => NaN
  | PInf, Fin b => match Rsign b with Lt => NInf | _ => PInf end
  | NInf, Fin b => match Rsign b with Lt => PInf | _ => NInf end
  end.

(** [np.log]: not-a-number below zero, minus infinity at zero. *)
Definition log (x : t) : t :=
  match x with
  | NaN => NaN
  | PInf => PInf
  | NInf => NaN
  | Fin r => match Rsign r with
             | Lt => NaN
             | Eq => NInf
             | Gt => Fin (ln r)
             end
  end.

(** [np.sqrt] *)
Definition sqrt (x : t) : t :=
  match x with
  | NaN => NaN
  | PInf => PInf
  | NInf => NaN
  | Fin r => match Rsign r with
             | Lt => NaN
             | _ => Fin (R_sqrt.sqrt r)
             end
  end.

(** [==] on floats: not-a-number equals nothing. *)
Definition eqb (x y : t) : bool :=
  match x, y with
  | Fin a, Fin b => if Req_dec_T a b then true else false
  | PInf, PInf | NInf, NInf => true
  | _, _ => false
  end.

(** [<=] on floats: false as soon as an operand is not-a-number. *)
Definition leb (x y : t) : bool :=
  match x, y with
  | NaN, _ | _, NaN => false
  | NInf, _ | _, PInf => true
  | PInf, _ | _, NInf => false
  | Fin a, Fin b => if Rle_dec a b then true else false
  end.

(** The binary step of [np.max] and [np.min]: not-a-number propagates. *)
Definition max2 (x y : t) : t :=
  if isnan x || isnan y then NaN else if leb x y then y else x.

Definition min2 (x y : t) : t :=
  if isnan x || isnan y then NaN else if leb x y then x else y.

(** [np.max] and [np.min] of a one-dimensional array.  numpy raises on an
    empty array; the only caller guards the call with [len(RRis) > 1], and
    the empty case is given the value [NaN] here. *)
Definition amax (l : list t) : t :=
  match l with
  | [] => NaN
  | x :: xs => fold_left max2 xs x
  end.

Definition amin (l : list t) : t :=
  match l with
  | [] => NaN
  | x :: xs => fold_left min2 xs x
  end.

(** [np.sum]: the empty sum is [0.0]. *)
Definition sum (l : list t) : t := fold_left add l (Fin 0).

End F64.

Abbreviation float64 := F64.t.

(* ================================================================= *)
(** ** Python values, exceptions and output *)

Inductive exn : Type :=
| ValueError (msg : string)
| IndexError (msg : string)
| KeyError (key : string)
| TypeError (msg : string)
| NameError (msg : string).

Inductive result (A : Type) : Type :=
| Ok (a : A)
| Err (e : exn).

Arguments Ok {A} a.
Arguments Err {A} e.

Definition rbind {A B : Type} (m : result A) (k : A -> result B) : result B :=
  match m with
  | Ok a => k a
  | Err e => Err e
  end.

(** A computation that may print and may raise: the lines printed so far,
    and the value or the exception. *)
Definition M (A : Type) : Type := (list string * result A)%type.

Definition ret {A : Type} (a : A) : M A := ([], Ok a).

Definition raise {A : Type} (e : exn) : M A := ([], Err e).

Definition print (line : string) : M unit := ([line], Ok tt).

Definition lift {A : Type} (r : result A) : M A := ([], r).

Definition bind {A B : Type} (m : M A) (k : A -> M B) : M B :=
  match m with
  | (out, Ok a) => let (out', r) := k a in (out ++ out', r)
  | (out, Err e) => (out, Err e)
  end.

Declare Scope py_scope.
Delimit Scope py_scope with py.
Notation "x <- m ;; k" := (bind m (fun x => k))
  (at level 61, m at next level, right associativity) : py_scope.
Notation "m ;;; k" := (bind m (fun _ => k))
  (at level 61, right associativity) : py_scope.
Notation "x <~ m ;; k" := (rbind m (fun x => k))
  (at level 61, m at next level, right associativity) : py_scope.

(** The values a result mapping holds. *)
Inductive pyvalue : Type :=
| PyFloat (x : float64)
| PyInt (n : Z).

(** A [dict] with string keys, in insertion order. *)
Definition dict : Type := list (string * pyvalue).

Fixpoint dict_get (k : string) (d : dict) : option pyvalue :=
  match d with
  | [] => None
  | (k', v) :: d' => if String.eqb k k' then Some v else dict_get k d'
  end.

(** [d[k] = v] *)
Fixpoint dict_set (k : string) (v : pyvalue) (d : dict) : dict :=
  match d with
  | [] => [(k, v)]
  | (k', v') :: d' =>
      if String.eqb k k' then (k', v) :: d' else (k', v') :: dict_set k v d'
  end.

(** [d.update(other)] *)
Definition dict_update (d other : dict) : dict :=
  fold_left (fun acc kv => dict_set (fst kv) (snd kv) acc) other d.

(** [sub in s] on strings. *)
Definition str_in (sub s : string) : bool :=
  match String.index 0 sub s with
  | Some _ => true
  | None => false
  end.

(* ================================================================= *)
(** ** Data frames and arrays *)

Definition column : Type := list float64.

(** A [pandas.DataFrame]: its columns in order, each with its label. *)
Definition DataFrame : Type := list (string * column).

Definition columns (df : DataFrame) : list string := map fst df.

(** The frames of the pipeline have distinct labels; with a repeated label
    pandas selects a frame, not a column, and [getitem] below, which reads
    the first column of the label, is stated for distinct labels. *)
Definition unique_labels (df : DataFrame) : Prop := NoDup (columns df).

(** [len(df)] *)
Definition nrows (df : DataFrame) : nat :=
  match df with
  | [] => 0%nat
  | (_, c) :: _ => List.length c
  end.

(** [df[key]]: a missing label raises [KeyError]. *)
Definition getitem (df : DataFrame) (key : string) : result column :=
  match find (fun p => String.eqb (fst p) key) df with
  | Some (_, c) => Ok c
  | None => Err (KeyError key)
  end.

(** [key in df.columns] *)
Definition has_column (df : DataFrame) (key : string) : bool :=
  existsb (String.eqb key) (columns df).

(** The rows a frame lacks up to [n] are filled with not-a-number. *)
Definition pad_frame (n : nat) (df : DataFrame) : DataFrame :=
  if (nrows df <? n)%nat
  then map (fun p => (fst p,
                      snd p ++ repeat F64.NaN (n - List.length (snd p))))
           df
  else df.

(** [pd.concat([a, b], axis=1)] on frames with the default index: the
    columns of [a] then those of [b], over the union of the two indices;
    the frame with fewer rows is filled with not-a-number. *)
Definition concat_columns (a b : DataFrame) : DataFrame :=
  let n := Nat.max (nrows a) (nrows b) in
  pad_frame n a ++ pad_frame n b.

(** [np.where(mask)[0]] and [np.argwhere(mask)[:, 0]]: the positions of the
    true entries, in increasing order. *)
Fixpoint where_from (i : Z) (mask : list bool) : list Z :=
  match mask with
  | [] => []
  | b :: mask' =>
      if b then i :: where_from (i + 1) mask' else where_from (i + 1) mask'
  end.

Definition np_where (mask : list bool) : list Z := where_from 0 mask.

(** [col == v], element by element. *)
Definition eq_scalar (col : column) (v : float64) : list bool :=
  map (fun x => F64.eqb x v) col.

(** [np.diff] of an integer array. *)
Fixpoint np_diff (l : list Z) : list Z :=
  match l with
  | a :: (b :: _) as rest => (b - a) :: np_diff rest
  | _ => []
  end.

(** [ndarray.sort] on integers. *)
Fixpoint insert_sorted (x : Z) (l : list Z) : list Z :=
  match l with
  | [] => [x]
  | y :: l' => if x <=? y then x :: l else y :: insert_sorted x l'
  end.

Definition np_sort (l : list Z) : list Z := fold_right insert_sorted [] l.

(** [aux[:-1][aux[1:] == aux[:-1]]] *)
Fixpoint adjacent_equal (aux : list Z) : list Z :=
  match aux with
  | a :: (b :: _) as rest =>
      if b =? a then a :: adjacent_equal rest else adjacent_equal rest
  | _ => []
  end.

(** [np.intersect1d(ar1, ar2, assume_unique=True)] as numpy computes it:
    concatenate, sort, keep every element equal to its successor. *)
Definition intersect1d (ar1 ar2 : list Z) : list Z :=
  adjacent_equal (np_sort (ar1 ++ ar2)).

(** The not-a-number ignoring statistics of numpy and pandas.
    [replace_nan0] is [numpy.lib.nanfunctions._replace_nan(a, 0)]. *)
Definition replace_nan0 (a : list float64) : list float64 :=
  map (fun x => if F64.isnan x then F64.Fin 0 else x) a.

Definition count_valid (a : list float64) : nat :=
  List.length (filter (fun x => negb (F64.isnan x)) a).

(** [np.nanmean], and the [mean] of a pandas series: the sum of the values
    that are numbers over their count (not-a-number when there is none). *)
Definition nanmean (a : list float64) : float64 :=
  F64.div (F64.sum (replace_nan0 a)) (F64.of_nat (count_valid a)).

(** [np.nanvar(a, ddof)], and the [var] of a pandas column: squared
    deviations from [nanmean], summed over the values that are numbers and
    divided by their count minus [ddof]; not-a-number when that divisor is
    not positive. *)
Definition nanvar (a : list float64) (ddof : Z) : float64 :=
  let avg := nanmean a in
  let sqr := map (fun x => if F64.isnan x then F64.Fin 0
                           else F64.mul (F64.sub x avg) (F64.sub x avg)) a in
  let dof := Z.of_nat (count_valid a) - ddof in
  if dof <=? 0 then F64.NaN else F64.div (F64.sum sqr) (F64.of_Z dof).

(** [np.nanstd(a, ddof)] *)
Definition nanstd (a : list float64) (ddof : Z) : float64 :=
  F64.sqrt (nanvar a ddof).

(** [len(pd.Series(a).index[pd.Series(a).isnull()])] *)
Definition count_null (a : list float64) : Z :=
  Z.of_nat (List.length (filter F64.isnan a)).

(* ================================================================= *)
(** ** Respiratory cycles: [_ecg_rsa_cycles] *)

(** The mapping the function returns has three fixed keys. *)
Record rsp_cycles : Type := {
  RSP_Inspiration_Onsets : list Z;
  RSP_Expiration_Onsets : list Z;
  RSP_Cycles_Length : list Z
}.

Definition _ecg_rsa_cycles (signals : DataFrame) : result rsp_cycles :=
  (phase <~ getitem signals "RSP_Phase" ;;
   completion <~ getitem signals "RSP_Phase_Completion" ;;
   let inspiration_onsets :=
     intersect1d (np_where (eq_scalar phase (F64.Fin 1)))
                 (np_where (eq_scalar completion (F64.Fin 0))) in
   let expiration_onsets :=
     intersect1d (np_where (eq_scalar phase (F64.Fin 0)))
                 (np_where (eq_scalar completion (F64.Fin 0))) in
   let cycles_length := np_diff inspiration_onsets in
   Ok {| RSP_Inspiration_Onsets := inspiration_onsets;
         RSP_Expiration_Onsets := expiration_onsets;
         RSP_Cycles_Length := cycles_length |})%py.

(* ================================================================= *)
(** ** Peak-to-trough: [_ecg_rsa_p2t] *)

(** [rpeaks[np.logical_and(rpeaks >= cycle_init, rpeaks < cycle_end)]] *)
Definition beats_between (cycle_init cycle_end : Z) (rpeaks : list Z) : list Z :=
  filter (fun r => (r >=? cycle_init) && (r <? cycle_end)) rpeaks.

(** The first loop: one array of beat indices for each pair of consecutive
    onsets [rsp_onsets[idx]], [rsp_onsets[idx + 1]]. *)
Fixpoint cycles_rri (rsp_onsets rpeaks : list Z) : list (list Z) :=
  match rsp_onsets with
  | cycle_init :: (cycle_end :: _) as rest =>
      beats_between cycle_init cycle_end rpeaks :: cycles_rri rest rpeaks
  | _ => []
  end.

(** [np.diff(cycle) / sampling_rate] *)
Definition RRis_of (cycle : list Z) (sampling_rate : Z) : list float64 :=
  map (fun d => F64.div (F64.of_Z d) (F64.of_Z sampling_rate)) (np_diff cycle).

(** The body of the second loop: the entry stays at the [np.nan] it was
    initialised with unless [len(RRis) > 1]. *)
Definition cycle_rsa (cycle : list Z) (sampling_rate : Z) : float64 :=
  let RRis := RRis_of cycle sampling_rate in
  if (1 <? List.length RRis)%nat
  then F64.sub (F64.amax RRis) (F64.amin RRis)
  else F64.NaN.

Definition rsa_values_of (rsp_onsets rpeaks : list Z) (sampling_rate : Z)
  : list float64 :=
  map (fun cycle => cycle_rsa cycle sampling_rate) (cycles_rri rsp_onsets rpeaks).

(** The four statistics of the non-continuous mode. *)
Definition p2t_summary (rsa_values : list float64) : dict :=
  let rsa := [("RSA_P2T_Mean", PyFloat (nanmean rsa_values))] in
  let rsa :=
    match dict_get "RSA_P2T_Mean" rsa with
    | Some (PyFloat m) => dict_set "RSA_P2T_Mean_log" (PyFloat (F64.log m)) rsa
    | _ => rsa
    end in
  let rsa := dict_set "RSA_P2T_SD" (PyFloat (nanstd rsa_values 1)) rsa in
  dict_set "RSA_P2T_NoRSA" (PyInt (count_null rsa_values)) rsa.

(** What [_ecg_rsa_p2t] returns: a mapping, or the interpolated trace. *)
Inductive p2t_output : Type :=
| P2T_dict (rsa : dict)
| P2T_trace (rsa : list float64).

(** The message of numpy when a boolean index of [m] entries is applied
    to an axis of [n] entries. *)
Definition boolean_index_mismatch (n m : nat) : string :=
  "boolean index did not match indexed array along axis 0; size of axis is "
  ++ NilZero.string_of_uint (Nat.to_uint n)
  ++ " but size of corresponding boolean axis is "
  ++ NilZero.string_of_uint (Nat.to_uint m).

(** [a[mask]] with a boolean mask.  numpy compares the length of the mask
    with the length of the array only when the mask is not empty: an empty
    mask selects nothing from any array. *)
Definition mask_index {A : Type} (a : list A) (mask : list bool) : result (list A) :=
  if (List.length mask =? 0)%nat || (List.length a =? List.length mask)%nat
  then Ok (map fst (filter snd (combine a mask)))
  else Err (IndexError (boolean_index_mismatch (List.length a)
                                               (List.length mask))).

(* ================================================================= *)
(** ** Porges-Bohrer: the epoch loop of [_ecg_rsa_pb] *)

(** [np.arange(0, n) / 2] then [time // 30], at position [k]. *)
Definition epoch_index (k : nat) : Z :=
  Qfloor (Qdiv (Qdiv (inject_Z (Z.of_nat k)) (inject_Z 2)) (inject_Z 30)).

(** The frame indexed by epoch: one row for each sample. *)
Definition epoch_frame (zero_mean_filtered : list float64) : list (Z * float64) :=
  combine (map epoch_index (seq 0 (List.length zero_mean_filtered)))
          zero_mean_filtered.

(** [time.loc[i]]: the rows labelled [i]; a label that is absent raises. *)
Definition loc (time : list (Z * float64)) (i : Z) : result (list float64) :=
  match filter (fun row => fst row =? i) time with
  | [] => Err (KeyError "Epoch Index")
  | rows => Ok (map snd rows)
  end.

(** [np.max] of the index: an empty array has no maximum. *)
Definition max_index (time : list (Z * float64)) : result Z :=
  match map fst time with
  | [] => Err (ValueError "zero-size array to reduction operation maximum which has no identity")
  | i :: rest => Ok (fold_left Z.max rest i)
  end.

Fixpoint collect {A : Type} (l : list (result A)) : result (list A) :=
  match l with
  | [] => Ok []
  | r :: l' => (a <~ r ;; rest <~ collect l' ;; Ok (a :: rest))%py
  end.

(** [np.log(epoch.var(axis=0) / 1000)] *)
Definition epoch_log_variance (epoch : list float64) : float64 :=
  F64.log (F64.div (nanvar epoch 1) (F64.of_Z 1000)).

(** Lines 217 to 229: from the filtered residual to the estimate. *)
Definition pb_epochs (zero_mean_filtered : list float64) : result dict :=
  (let time := epoch_frame zero_mean_filtered in
   top <~ max_index time ;;
   epochs <~ collect (map (fun i => loc time (Z.of_nat i))
                          (seq 0 (Z.to_nat (top + 1)))) ;;
   let variance := map epoch_log_variance epochs in
   let variance := filter (fun row => negb (F64.isnan row)) variance in
   match variance with
   | [] => Err (ValueError "No objects to concatenate")
   | _ => Ok [("RSA_PorgesBohrer", PyFloat (nanmean variance))]
   end)%py.

(** [a - b] on arrays, with numpy's broadcasting of a one-element array. *)
Definition array_sub (a b : list float64) : result (list float64) :=
  if (List.length a =? List.length b)%nat
  then Ok (map (fun p => F64.sub (fst p) (snd p)) (combine a b))
  else match a, b with
       | [x], _ => Ok (map (fun y => F64.sub x y) b)
       | _, [y] => Ok (map (fun x => F64.sub x y) a)
       | _, _ => Err (ValueError "operands could not be broadcast together")
       end.

(* ================================================================= *)
(** ** The functions that call into the rest of the package *)

(** What the caller passes as a table: a frame, or a tuple whose first
    element is a frame (as [ecg_process] and [rsp_process] return). *)
Inductive table_arg (pyobject : Type) : Type :=
| Frame (df : DataFrame)
| Tuple (first : DataFrame) (others : list pyobject).

Arguments Frame {pyobject} df.
Arguments Tuple {pyobject} first others.

(** The tuple [_ecg_rsa_formatinput] returns. *)
Record formatted : Type := {
  fmt_signals : DataFrame;
  fmt_ecg_period : list float64;
  fmt_rpeaks : list Z;
  fmt_rsp_signal : option (list float64)
}.

(** What [ecg_rsa] returns: the mapping of the non-continuous mode, or the
    one-column frame of the continuous mode. *)
Inductive rsa_output : Type :=
| RSA_dict (rsa : dict)
| RSA_frame (rsa : DataFrame).

Section Package.

(** An object this module only hands on: the [rpeaks] argument, the
    elements of a tuple after the first. *)
Variable pyobject : Type.

(** [signal_interpolate(x_values, y_values, desired_length)] *)
Variable signal_interpolate :
  list Z -> list float64 -> nat -> result (list float64).

(** [signal_resample(signal, sampling_rate, desired_sampling_rate)] *)
Variable signal_resample : list float64 -> Z -> Z -> result (list float64).

(** [signal_filter(signal, sampling_rate, lowcut, highcut, method, order,
    window_size)]; [None] stands for an argument left to its default. *)
Variable signal_filter :
  list float64 -> Z -> option Q -> option Q ->
  option string -> option Z -> option Z -> result (list float64).

(** [signal_rate(peaks, sampling_rate, desired_length)] *)
Variable signal_rate : option pyobject -> Z -> nat -> result (list float64).

(** [ecg_rsp(ecg_rate, sampling_rate)] *)
Variable ecg_rsp : list float64 -> Z -> result (list float64).

(** [rsp_process(rsp_signal, sampling_rate)], first component. *)
Variable rsp_process : list float64 -> Z -> result DataFrame.

(** [_signal_formatpeaks_sanitize(peaks, desired_length=None)], first
    component, on a frame or on the object passed as [rpeaks]. *)
Variable _signal_formatpeaks_sanitize : DataFrame + pyobject -> result (list Z).

Definition _ecg_rsa_p2t (rsp_onsets rpeaks : list Z) (sampling_rate : Z)
  (continuous : bool) (ecg_period : list float64) (rsp_peaks : list Z)
  : result p2t_output :=
  (let rsa_values := rsa_values_of rsp_onsets rpeaks sampling_rate in
   if negb continuous
   then Ok (P2T_dict (p2t_summary rsa_values))
   else
     let valid := map (fun v => negb (F64.isnan v)) rsa_values in
     x_values <~ mask_index rsp_peaks valid ;;
     y_values <~ mask_index rsa_values valid ;;
     rsa <~ signal_interpolate x_values y_values (List.length ecg_period) ;;
     Ok (P2T_trace rsa))%py.

Definition _ecg_rsa_pb (ecg_period : list float64) (sampling_rate : Z)
  (continuous : bool) : result (option dict) :=
  (if continuous then Ok None
   else
     resampled <~ signal_resample ecg_period sampling_rate 2 ;;
     trend <~ signal_filter resampled 2 (Some 0.095%Q) None
                (Some "savgol") (Some 3) (Some 21) ;;
     zero_mean <~ array_sub resampled trend ;;
     zero_mean_filtered <~ signal_filter zero_mean 2 (Some 0.12%Q)
                             (Some 0.40%Q) None None None ;;
     rsa <~ pb_epochs zero_mean_filtered ;;
     Ok (Some rsa))%py.

(** Surrogate respiration: [ecg_rsp] then [rsp_process], then the warning. *)
Definition derive_rsp (ecg_period : list float64) (sampling_rate : Z)
  (warning : string) : M DataFrame :=
  (edr <- lift (ecg_rsp ecg_period sampling_rate) ;;
   rsp_signals <- lift (rsp_process edr sampling_rate) ;;
   print warning ;;;
   ret rsp_signals)%py.

Definition count_rsp_phase (df : DataFrame) : nat :=
  List.length (filter (fun col => str_in "RSP_Phase" col) (columns df)).

(** Lines 328 to 340: the heart period, from a rate-like column or from
    the beat indices. *)
Definition heart_period (ecg_signals : DataFrame) (rpeaks : option pyobject)
  (sampling_rate : Z) : M (list float64) :=
  match filter (fun col => str_in "ECG_Rate" col) (columns ecg_signals) with
  | col :: _ => lift (getitem ecg_signals col)
  | [] =>
      match filter (fun col => str_in "ECG_R_Peaks" col) (columns ecg_signals) with
      | _ :: _ => lift (signal_rate rpeaks sampling_rate (nrows ecg_signals))
      | [] => raise (ValueError "NeuroKit error: _ecg_rsa_formatinput():Wrong input, we couldn't extractheart rate signal.")
      end
  end.

(** Lines 341 to 364: the respiration table, derived from the heart period
    when none is supplied or when it lacks the two phase columns. *)
Definition respiration_table (ecg_signals : DataFrame)
  (rsp_signals : option (table_arg pyobject)) (ecg_period : list float64)
  (sampling_rate : Z) : M (option DataFrame) :=
  (rsp_signals <-
     match rsp_signals with
     | None =>
         if negb (count_rsp_phase ecg_signals =? 2)%nat
         then
           derived <- derive_rsp ecg_period sampling_rate
             "NeuroKit warning: _ecg_rsa_formatinput():RSP signal not found. For this time, we will derive RSP signal from ECG using ecg_rsp(). But the results are definitely not reliable, so please provide a real RSP signal." ;;
           ret (Some derived)
         else ret None
     | Some (Tuple first _) => ret (Some first)
     | Some (Frame df) => ret (Some df)
     end ;;
   match rsp_signals with
   | Some df =>
       if negb (count_rsp_phase df =? 2)%nat
       then
         derived <- derive_rsp ecg_period sampling_rate
           "NeuroKit warning: _ecg_rsa_formatinput():RSP signal not found. RSP signal is derived from ECG usingecg_rsp(). Please provide RSP signal." ;;
         ret (Some derived)
       else ret (Some df)
   | None => ret None
   end)%py.

(** Lines 366 to 372: the beat indices; [NameError] alone is turned into
    the [ValueError] of the formatter. *)
Definition beat_indices (ecg_signals : DataFrame) (rpeaks : option pyobject)
  : M (list Z) :=
  match rpeaks with
  | None =>
      match _signal_formatpeaks_sanitize (inl ecg_signals) with
      | Err (NameError _) =>
          raise (ValueError "NeuroKit error: _ecg_rsa_formatinput(): Wrong input, we couldn't extract rpeaks indices.")
      | r => lift r
      end
  | Some given => lift (_signal_formatpeaks_sanitize (inr given))
  end.

(** Lines 376 to 384: the respiration signal, clean before raw before
    generic. *)
Definition respiration_signal (signals : DataFrame) : M (option column) :=
  (if has_column signals "RSP_Clean"
   then v <- lift (getitem signals "RSP_Clean") ;; ret (Some v)
   else if has_column signals "RSP_Raw"
   then v <- lift (getitem signals "RSP_Raw") ;; ret (Some v)
   else if has_column signals "RSP"
   then v <- lift (getitem signals "RSP") ;; ret (Some v)
   else ret None)%py.

Definition _ecg_rsa_formatinput (ecg_signals : table_arg pyobject)
  (rsp_signals : option (table_arg pyobject)) (rpeaks : option pyobject)
  (sampling_rate : Z) : M formatted :=
  (let '(ecg_signals, rpeaks) :=
     match ecg_signals with
     | Tuple first _ => (first, None)
     | Frame df => (df, rpeaks)
     end in
   ecg_period <- heart_period ecg_signals rpeaks sampling_rate ;;
   rsp_signals <- respiration_table ecg_signals rsp_signals ecg_period
                    sampling_rate ;;
   rpeaks <- beat_indices ecg_signals rpeaks ;;
   let signals :=
     match rsp_signals with
     | Some df => concat_columns ecg_signals df
     | None => ecg_signals
     end in
   rsp_signal <- respiration_signal signals ;;
   ret {| fmt_signals := signals;
          fmt_ecg_period := ecg_period;
          fmt_rpeaks := rpeaks;
          fmt_rsp_signal := rsp_signal |})%py.

(** [ecg_rsa] from line 129 on, once the input is formatted. *)
Definition ecg_rsa_body (signals : DataFrame) (ecg_period : list float64)
  (rpeaks : list Z) (sampling_rate : Z) (continuous : bool) : M rsa_output :=
  (rsp_cycles <- lift (_ecg_rsa_cycles signals) ;;
   let rsp_onsets := RSP_Inspiration_Onsets rsp_cycles in
   marks <- lift (getitem signals "RSP_Peaks") ;;
   let rsp_peaks := np_where (eq_scalar marks (F64.Fin 1)) in
   first_onset <-
     match rsp_onsets with
     | onset :: _ => ret onset
     | [] => raise (IndexError "index 0 is out of bounds for axis 0 with size 0")
     end ;;
   let rsp_peaks := filter (fun p => p >? first_onset) rsp_peaks in
   let rsp_peaks :=
     if Z.of_nat (List.length rsp_peaks) - Z.of_nat (List.length rsp_onsets) =? 0
     then removelast rsp_peaks else rsp_peaks in
   (if negb (Z.of_nat (List.length rsp_peaks) - Z.of_nat (List.length rsp_onsets) =? -1)
    then print "NeuroKit error: ecg_rsp(): Couldn't find rsp cycles onsets and centers. Check your RSP signal."
    else ret tt) ;;;
   rsa_p2t <- lift (_ecg_rsa_p2t rsp_onsets rpeaks sampling_rate continuous
                      ecg_period rsp_peaks) ;;
   rsa_pb <- lift (_ecg_rsa_pb ecg_period sampling_rate continuous) ;;
   if negb continuous
   then
     match rsa_p2t, rsa_pb with
     | P2T_dict p2t, Some pb =>
         ret (RSA_dict (dict_update (dict_update [] p2t) pb))
     | _, _ => raise (TypeError "object is not iterable")
     end
   else
     match rsa_p2t with
     | P2T_trace trace => ret (RSA_frame [("RSA_P2T", trace)])
     | P2T_dict _ => raise (ValueError "If using all scalar values, you must pass an index")
     end)%py.

Definition ecg_rsa (ecg_signals : table_arg pyobject)
  (rsp_signals : option (table_arg pyobject)) (rpeaks : option pyobject)
  (sampling_rate : Z) (continuous : bool) : M rsa_output :=
  (input <- _ecg_rsa_formatinput ecg_signals rsp_signals rpeaks sampling_rate ;;
   ecg_rsa_body (fmt_signals input) (fmt_ecg_period input) (fmt_rpeaks input)
                sampling_rate continuous)%py.

End Package.

(* ================================================================= *)
(** ** The vocabulary of the specification *)

(** [m] is the largest, resp. the smallest, element of [l]. *)
Definition is_maximum (l : list R) (m : R) : Prop :=
  In m l /\ forall x, In x l -> (x <= m)%R.

Definition is_minimum (l : list R) (m : R) : Prop :=
  In m l /\ forall x, In x l -> (m <= x)%R.

(** The successive inter-beat intervals of the beats of a cycle: the
    difference of beat [k + 1] and beat [k], over the sampling rate. *)
Definition interbeat_intervals (beats : list Z) (sampling_rate : Z) : list R :=
  map (fun k => (IZR (nth (S k) beats 0 - nth k beats 0)%Z / IZR sampling_rate)%R)
      (seq 0 (List.length beats - 1)).

(** The statement on the per-cycle estimate, for cycles of at least
    [min_beats] beats: the estimate of cycle [i] is the largest interval
    minus the smallest, and it is not negative. *)
Definition p2t_cycle_statement (min_beats : nat) : Prop :=
  forall (rsp_onsets rpeaks : list Z) (sampling_rate : Z) (i : nat)
         (cycle_init cycle_end : Z),
    sampling_rate <> 0 ->
    nth_error rsp_onsets i = Some cycle_init ->
    nth_error rsp_onsets (S i) = Some cycle_end ->
    (min_beats <= List.length (beats_between cycle_init cycle_end rpeaks))%nat ->
    exists hi lo : R,
      is_maximum (interbeat_intervals
                    (beats_between cycle_init cycle_end rpeaks) sampling_rate) hi /\
      is_minimum (interbeat_intervals
                    (beats_between cycle_init cycle_end rpeaks) sampling_rate) lo /\
      nth_error (rsa_values_of rsp_onsets rpeaks sampling_rate) i
        = Some (F64.Fin (hi - lo)) /\
      (0 <= hi - lo)%R.

(** Sum, mean and Bessel-corrected variance of a list of reals. *)
Definition Rsum (l : list R) : R := fold_right Rplus 0%R l.

Definition Rmean (l : list R) : R := (Rsum l / INR (List.length l))%R.

Definition bessel_variance (l : list R) : R :=
  (Rsum (map (fun x => (x - Rmean l) * (x - Rmean l)) l)
   / INR (List.length l - 1))%R.

(** The values of a list that are numbers. *)
Definition non_missing (a : list float64) : list float64 :=
  filter (fun x => negb (F64.isnan x)) a.

(** Mean and sample standard deviation of a list of floats, every element
    counted. *)
Definition mean_all (a : list float64) : float64 :=
  F64.div (F64.sum a) (F64.of_nat (List.length a)).

Definition sample_var_all (a : list float64) : float64 :=
  if (List.length a <=? 1)%nat then F64.NaN
  else F64.div
         (F64.sum (map (fun x => F64.mul (F64.sub x (mean_all a))
                                         (F64.sub x (mean_all a))) a))
         (F64.of_nat (List.length a - 1)).

Definition sample_sd_all (a : list float64) : float64 :=
  F64.sqrt (sample_var_all a).

(** The epochs of the Porges-Bohrer estimator as consecutive blocks of 60
    samples (30 seconds at 2 Hz); the last block may be shorter. *)
Definition epoch_block (i : nat) (signal : list float64) : list float64 :=
  firstn 60 (skipn (60 * i) signal).

Definition epoch_count (n : nat) : nat := ((n + 59) / 60)%nat.

Definition epoch_blocks (signal : list float64) : list (list float64) :=
  map (fun i => epoch_block i signal) (seq 0 (epoch_count (List.length signal))).

(** The blocks that hold a full 30 seconds. *)
Definition complete_epochs (signal : list float64) : list (list float64) :=
  filter (fun epoch => (List.length epoch =? 60)%nat) (epoch_blocks signal).

(** The estimate from a choice of epochs: the mean of the log-variances
    that are numbers, an exception when there is none. *)
Definition pb_estimate_over (epochs : list (list float64)) : result dict :=
  match non_missing (map epoch_log_variance epochs) with
  | [] => Err (ValueError "No objects to concatenate")
  | variance => Ok [("RSA_PorgesBohrer", PyFloat (mean_all variance))]
  end.

(** The statement on the epochs that contribute to the estimate. *)
Definition pb_epochs_statement
  (contributing : list float64 -> list (list float64)) : Prop :=
  forall zero_mean_filtered : list float64,
    zero_mean_filtered <> [] ->
    pb_epochs zero_mean_filtered
    = pb_estimate_over (contributing zero_mean_filtered).

(** The statement on a series without variance: the epoch loop raises. *)
Definition raises {A : Type} (r : result A) : Prop :=
  match r with
  | Err _ => True
  | Ok _ => False
  end.

Definition pb_constant_statement : Prop :=
  forall (c : R) (n : nat),
    (2 <= n)%nat -> raises (pb_epochs (repeat (F64.Fin c) n)).

(** The number of values that are not numbers. *)
Fixpoint count_missing (a : list float64) : nat :=
  match a with
  | [] => 0%nat
  | F64.NaN :: a' => S (count_missing a')
  | _ :: a' => count_missing a'
  end.

(** The rows where the respiratory phase has the label [label] and the
    phase completion is zero, in increasing order. *)
Definition onset_rows (phase completion : column) (label : float64) : list Z :=
  map Z.of_nat
    (filter (fun i => match nth_error phase i, nth_error completion i with
                      | Some p, Some c =>
                          F64.eqb p label && F64.eqb c (F64.Fin 0)
                      | _, _ => false
                      end)
            (seq 0 (List.length phase))).

(** The table of the cycle-extraction example: ten rows, the phase
    completion back at zero on rows 0, 3, 6 and 8. *)
Definition example_phase : column :=
  map F64.Fin [1; 1; 1; 0; 0; 0; 1; 1; 0; 0]%R.

Definition example_completion : column :=
  map F64.Fin [0; 1 / 3; 2 / 3; 0; 1 / 3; 2 / 3; 0; 1 / 2; 0; 1 / 2]%R.

Definition example_signals : DataFrame :=
  [("RSP_Phase", example_phase); ("RSP_Phase_Completion", example_completion)].

(** The frame the formatter reads: the argument, or its first element. *)
Definition frame_of {pyobject : Type} (arg : table_arg pyobject) : DataFrame :=
  match arg with
  | Frame df => df
  | Tuple first _ => first
  end.

(** The beat indices the formatter keeps: none with a tuple. *)
Definition effective_rpeaks {pyobject : Type} (ecg_signals : table_arg pyobject)
  (rpeaks : option pyobject) : option pyobject :=
  match ecg_signals with
  | Frame _ => rpeaks
  | Tuple _ _ => None
  end.

(** The object the beat indices are taken from: what the caller supplied
    with a frame, the cardiac table itself otherwise. *)
Definition peaks_source {pyobject : Type} (ecg_signals : table_arg pyobject)
  (rpeaks : option pyobject) : DataFrame + pyobject :=
  match ecg_signals, rpeaks with
  | Frame _, Some given => inr given
  | _, _ => inl (frame_of ecg_signals)
  end.

(** The cardiac table has neither a rate-like nor a beat-marker column. *)
Definition lacks_cardiac_columns (df : DataFrame) : Prop :=
  forall col : string,
    In col (columns df) ->
    str_in "ECG_Rate" col = false /\ str_in "ECG_R_Peaks" col = false.

(** The [InputError] of the specification: Python's [ValueError]. *)
Definition InputError (e : exn) : Prop :=
  match e with
  | ValueError _ => True
  | _ => False
  end.

(** No row of the table is an inspiration onset. *)
Definition no_inspiration_onset (phase completion : column) : Prop :=
  forall (i : nat) (p c : float64),
    nth_error phase i = Some p ->
    nth_error completion i = Some c ->
    F64.eqb p (F64.Fin 1) && F64.eqb c (F64.Fin 0) = false.

(** The statement on a table without inspiration onset, for every aligned
    table with the two phase columns: once the input is formatted, the
    entry point ends with an indexing error. *)
Definition no_onset_statement : Prop :=
  forall (signal_interpolate :
            list Z -> list float64 -> nat -> result (list float64))
         (signal_resample : list float64 -> Z -> Z -> result (list float64))
         (signal_filter :
            list float64 -> Z -> option Q -> option Q ->
            option string -> option Z -> option Z -> result (list float64))
         (signals : DataFrame) (phase completion : column)
         (ecg_period : list float64) (rpeaks : list Z) (sampling_rate : Z)
         (continuous : bool),
    unique_labels signals ->
    getitem signals "RSP_Phase" = Ok phase ->
    getitem signals "RSP_Phase_Completion" = Ok completion ->
    no_inspiration_onset phase completion ->
    exists msg : string,
      snd (ecg_rsa_body signal_interpolate signal_resample signal_filter
             signals ecg_period rpeaks sampling_rate continuous)
      = Err (IndexError msg).

(** A package for the examples: collaborators that hand their input
    back, or return nothing, and a table of two rows. *)
Definition example_interpolate (x_values : list Z) (y_values : list float64)
  (desired_length : nat) : result (list float64) := Ok [].

Definition example_resample (signal : list float64) (sampling_rate desired : Z)
  : result (list float64) := Ok signal.

Definition example_filter (signal : list float64) (sampling_rate : Z)
  (lowcut highcut : option Q) (method : option string)
  (order window_size : option Z) : result (list float64) := Ok signal.

Definition example_rate {pyobject : Type} (peaks : option pyobject)
  (sampling_rate : Z) (desired_length : nat) : result (list float64) := Ok [].

Definition example_ecg_rsp (ecg_rate : list float64) (sampling_rate : Z)
  : result (list float64) := Ok ecg_rate.

Definition example_rsp_process (rsp_signal : list float64) (sampling_rate : Z)
  : result DataFrame := Ok [].

Definition example_sanitize (peaks : DataFrame + unit) : result (list Z) :=
  Ok [].

Definition example_table : DataFrame :=
  [("ECG_Rate", [F64.Fin 0; F64.Fin 0]);
   ("RSP_Phase", [F64.Fin 1; F64.Fin 1]);
   ("RSP_Phase_Completion", [F64.Fin 0; F64.Fin (1 / 2)]);
   ("RSP_Peaks", [F64.Fin 0; F64.Fin 1])].

(** The same table during expiration: no inspiration onset. *)
Definition example_table_no_onset : DataFrame :=
  [("ECG_Rate", [F64.Fin 0; F64.Fin 0]);
   ("RSP_Phase", [F64.Fin 0; F64.Fin 0]);
   ("RSP_Phase_Completion", [F64.Fin 0; F64.Fin (1 / 2)]);
   ("RSP_Peaks", [F64.Fin 0; F64.Fin 1])].

(** The table during expiration, without the column of the respiratory
    peaks. *)
Definition example_table_no_peaks : DataFrame :=
  [("ECG_Rate", [F64.Fin 0; F64.Fin 0]);
   ("RSP_Phase", [F64.Fin 0; F64.Fin 0]);
   ("RSP_Phase_Completion", [F64.Fin 0; F64.Fin (1 / 2)])].

(** Modelled from the spec: [_signal_formatpeaks_sanitize] is defined in
    [neurokit2/signal/signal_formatpeaks.py], which is not among the
    sources.  Sections 4.1 and 6 of the specification: the beat indices are
    extracted from the cardiac table's own peak-marker column, a list that
    is supplied is returned in canonical index form, and the call fails
    with an [InputError] when the indices cannot be located. *)
Definition sanitize_from_spec (peaks : DataFrame + list Z) : result (list Z) :=
  match peaks with
  | inl df =>
      match filter (fun col => str_in "ECG_R_Peaks" col) (columns df) with
      | col :: _ =>
          (marks <~ getitem df col ;;
           Ok (np_where (eq_scalar marks (F64.Fin 1))))%py
      | [] => Err (ValueError "beat indices cannot be located")
      end
  | inr indices => Ok indices
  end.

(** A cardiac table with a rate and no beat marker. *)
Definition example_rate_only : DataFrame :=
  [("ECG_Rate", [F64.Fin 0; F64.Fin 0])].

Definition example_ecg_rsa :=
  ecg_rsa unit example_interpolate example_resample example_filter
    example_rate example_ecg_rsp example_rsp_process example_sanitize.

Definition example_formatinput :=
  _ecg_rsa_formatinput unit example_rate example_ecg_rsp example_rsp_process
    example_sanitize.

(** The mapping of the non-continuous mode when no cycle has a value. *)
Definition p2t_summary_missing (n_cycles : nat) : dict :=
  [("RSA_P2T_Mean", PyFloat F64.NaN);
   ("RSA_P2T_Mean_log", PyFloat F64.NaN);
   ("RSA_P2T_SD", PyFloat F64.NaN);
   ("RSA_P2T_NoRSA", PyInt (Z.of_nat n_cycles))].

(** A value that is missing or a real that is not negative. *)
Definition missing_or_nonneg (v : float64) : Prop :=
  v = F64.NaN \/ exists r : R, v = F64.Fin r /\ (0 <= r)%R.

(** The sum of a list of integers. *)
Definition Zsum (l : list Z) : Z := fold_right Z.add 0 l.





(** The columns [ecg_rsa] reads from the aligned table, in the order in
    which it reads them. *)
Definition required_columns : list string :=
  ["RSP_Phase"; "RSP_Phase_Completion"; "RSP_Peaks"].


(** The table whose phase columns the formatter counts: the respiration
    the caller supplied, or the cardiac table when there is none. *)
Definition respiration_source {pyobject : Type} (ecg_signals : DataFrame)
  (rsp_signals : option (table_arg pyobject)) : DataFrame :=
  match rsp_signals with
  | Some supplied => frame_of supplied
  | None => ecg_signals
  end.


(* ================================================================= *)
(** * Properties *)

(** ** float64 arithmetic *)

Module F64Facts.
Import F64.

Lemma Rsign_spec (r : R) :
  match Rsign r with
  | Lt => (r < 0)%R
  | Eq => r = 0%R
  | Gt => (0 < r)%R
  end.
Proof.
  unfold Rsign. destruct (total_order_T r 0) as [[H | H] | H]; auto.
Qed.

Lemma Rsign_pos (r : R) : (0 < r)%R -> Rsign r = Gt.
Proof.
  intros H. pose proof (Rsign_spec r) as S. destruct (Rsign r); auto; lra.
Qed.

Lemma Rsign_zero : Rsign 0 = Eq.
Proof.
  pose proof (Rsign_spec 0) as S. destruct (Rsign 0); auto; lra.
Qed.

Lemma div_Fin (a b : R) : b <> 0%R -> div (Fin a) (Fin b) = Fin (a / b).
Proof.
  intros H. simpl. pose proof (Rsign_spec b) as S.
  destruct (Rsign b); auto. contradiction.
Qed.

Lemma log_zero : log (Fin 0) = NInf.
Proof. simpl. now rewrite Rsign_zero. Qed.

Lemma log_pos (r : R) : (0 < r)%R -> log (Fin r) = Fin (ln r).
Proof. intros H. simpl. now rewrite Rsign_pos. Qed.

Lemma sqrt_nonneg (r : R) : (0 <= r)%R -> sqrt (Fin r) = Fin (R_sqrt.sqrt r).
Proof.
  intros H. simpl. pose proof (Rsign_spec r) as S.
  destruct (Rsign r); auto; lra.
Qed.

Lemma eqb_Fin_true (a b : R) : a = b -> eqb (Fin a) (Fin b) = true.
Proof. intros H. simpl. destruct (Req_dec_T a b); auto; contradiction. Qed.

Lemma eqb_Fin_false (a b : R) : a <> b -> eqb (Fin a) (Fin b) = false.
Proof. intros H. simpl. destruct (Req_dec_T a b); auto; contradiction. Qed.

Lemma max2_Fin (a b : R) : max2 (Fin a) (Fin b) = Fin (Rmax a b).
Proof.
  unfold max2, Rmax. simpl. destruct (Rle_dec a b); reflexivity.
Qed.

Lemma min2_Fin (a b : R) : min2 (Fin a) (Fin b) = Fin (Rmin a b).
Proof.
  unfold min2, Rmin. simpl. destruct (Rle_dec a b); reflexivity.
Qed.

Lemma fold_max2_Fin (xs : list R) (x : R) :
  fold_left max2 (map Fin xs) (Fin x) = Fin (fold_left Rmax xs x).
Proof.
  revert x. induction xs as [| y xs IH]; intros x; simpl; auto.
  rewrite <- IH. f_equal. apply max2_Fin.
Qed.

Lemma fold_min2_Fin (xs : list R) (x : R) :
  fold_left min2 (map Fin xs) (Fin x) = Fin (fold_left Rmin xs x).
Proof.
  revert x. induction xs as [| y xs IH]; intros x; simpl; auto.
  rewrite <- IH. f_equal. apply min2_Fin.
Qed.

Lemma add_0_r (x : t) : add x (Fin 0) = x.
Proof.
  destruct x; simpl; auto. f_equal. ring.
Qed.

Lemma fold_add_Fin (xs : list R) (x : R) :
  fold_left add (map Fin xs) (Fin x) = Fin (x + Rsum xs).
Proof.
  revert x. induction xs as [| y xs IH]; intros x; simpl.
  - f_equal. ring.
  - rewrite IH. f_equal. ring.
Qed.

Lemma sum_Fin (xs : list R) : sum (map Fin xs) = Fin (Rsum xs).
Proof.
  unfold sum. rewrite fold_add_Fin. f_equal. ring.
Qed.

End F64Facts.

(* ================================================================= *)
(** ** Peak-to-trough *)

Lemma fold_Rmax_is_maximum (xs : list R) (x : R) :
  is_maximum (x :: xs) (fold_left Rmax xs x).
Proof.
  revert x. induction xs as [| y xs IH]; intros x; simpl.
  - split; [now left |]. intros z [<- | []]. lra.
  - destruct (IH (Rmax x y)) as [Hin Hub]. split.
    + destruct Hin as [Hm | Hm]; [| now right; right].
      rewrite <- Hm. unfold Rmax. destruct (Rle_dec x y); simpl; auto.
    + intros z Hz.
      assert (Hxy : (x <= Rmax x y /\ y <= Rmax x y)%R)
        by (split; [apply Rmax_l | apply Rmax_r]).
      assert (Htop : (Rmax x y <= fold_left Rmax xs (Rmax x y))%R)
        by (apply Hub; now left).
      destruct Hz as [<- | [<- | Hz]]; try lra.
      apply Hub. now right.
Qed.

Lemma fold_Rmin_is_minimum (xs : list R) (x : R) :
  is_minimum (x :: xs) (fold_left Rmin xs x).
Proof.
  revert x. induction xs as [| y xs IH]; intros x; simpl.
  - split; [now left |]. intros z [<- | []]. lra.
  - destruct (IH (Rmin x y)) as [Hin Hlb]. split.
    + destruct Hin as [Hm | Hm]; [| now right; right].
      rewrite <- Hm. unfold Rmin. destruct (Rle_dec x y); simpl; auto.
    + intros z Hz.
      assert (Hxy : (Rmin x y <= x /\ Rmin x y <= y)%R)
        by (split; [apply Rmin_l | apply Rmin_r]).
      assert (Hbot : (fold_left Rmin xs (Rmin x y) <= Rmin x y)%R)
        by (apply Hlb; now left).
      destruct Hz as [<- | [<- | Hz]]; try lra.
      apply Hlb. now right.
Qed.

(** [np.diff] by positions. *)
Lemma np_diff_nth (l : list Z) :
  np_diff l
  = map (fun k => nth (S k) l 0 - nth k l 0) (seq 0 (List.length l - 1)).
Proof.
  induction l as [| a [| b l] IH]; try reflexivity.
  change (np_diff (a :: b :: l)) with ((b - a) :: np_diff (b :: l)).
  rewrite IH.
  replace (List.length (a :: b :: l) - 1)%nat
    with (S (List.length (b :: l) - 1)) by (simpl; lia).
  simpl seq. simpl map at 2. f_equal.
  rewrite <- seq_shift, map_map. reflexivity.
Qed.

Lemma np_diff_length (l : list Z) :
  List.length (np_diff l) = (List.length l - 1)%nat.
Proof.
  rewrite np_diff_nth, length_map, length_seq. reflexivity.
Qed.

(** With a sampling rate that is not zero the intervals are finite, and
    they are the intervals of the specification. *)
Lemma RRis_of_finite (cycle : list Z) (sampling_rate : Z) :
  sampling_rate <> 0 ->
  RRis_of cycle sampling_rate
  = map F64.Fin (interbeat_intervals cycle sampling_rate).
Proof.
  intros Hsr. unfold RRis_of, interbeat_intervals.
  rewrite np_diff_nth, !map_map. apply map_ext. intros k.
  unfold F64.of_Z. apply F64Facts.div_Fin.
  intros H. apply Hsr. now apply eq_IZR.
Qed.

Lemma interbeat_intervals_length (beats : list Z) (sampling_rate : Z) :
  List.length (interbeat_intervals beats sampling_rate)
  = (List.length beats - 1)%nat.
Proof.
  unfold interbeat_intervals. now rewrite length_map, length_seq.
Qed.

(** Cycle [i] of the first loop holds the beats between onsets [i] and
    [i + 1]. *)
Lemma cycles_rri_nth (rsp_onsets rpeaks : list Z) (i : nat) (cycle_init cycle_end : Z) :
  nth_error rsp_onsets i = Some cycle_init ->
  nth_error rsp_onsets (S i) = Some cycle_end ->
  nth_error (cycles_rri rsp_onsets rpeaks) i
  = Some (beats_between cycle_init cycle_end rpeaks).
Proof.
  revert i. induction rsp_onsets as [| a [| b rest] IH]; intros i Hi Hj.
  - destruct i; discriminate.
  - destruct i as [| [| i]]; discriminate.
  - destruct i as [| i].
    + simpl in Hi, Hj. now inversion Hi; inversion Hj; subst.
    + change (cycles_rri (a :: b :: rest) rpeaks)
        with (beats_between a b rpeaks :: cycles_rri (b :: rest) rpeaks).
      simpl nth_error. apply IH; assumption.
Qed.

Lemma cycles_rri_length (rsp_onsets rpeaks : list Z) :
  List.length (cycles_rri rsp_onsets rpeaks) = (List.length rsp_onsets - 1)%nat.
Proof.
  induction rsp_onsets as [| a [| b rest] IH]; try reflexivity.
  change (cycles_rri (a :: b :: rest) rpeaks)
    with (beats_between a b rpeaks :: cycles_rri (b :: rest) rpeaks).
  simpl List.length in *. rewrite IH. lia.
Qed.

Lemma rsa_values_nth (rsp_onsets rpeaks : list Z) (sampling_rate : Z) (i : nat)
  (cycle_init cycle_end : Z) :
  nth_error rsp_onsets i = Some cycle_init ->
  nth_error rsp_onsets (S i) = Some cycle_end ->
  nth_error (rsa_values_of rsp_onsets rpeaks sampling_rate) i
  = Some (cycle_rsa (beats_between cycle_init cycle_end rpeaks) sampling_rate).
Proof.
  intros Hi Hj. unfold rsa_values_of.
  rewrite nth_error_map, (cycles_rri_nth _ _ _ _ _ Hi Hj). reflexivity.
Qed.

(** A cycle of fewer than three beats has fewer than two intervals. *)
Lemma cycle_rsa_few_beats (cycle : list Z) (sampling_rate : Z) :
  (List.length cycle < 3)%nat -> cycle_rsa cycle sampling_rate = F64.NaN.
Proof.
  intros H. unfold cycle_rsa, RRis_of.
  rewrite length_map, np_diff_length.
  destruct (Nat.ltb_spec 1 (List.length cycle - 1)); [lia | reflexivity].
Qed.

Lemma cycle_rsa_range (cycle : list Z) (sampling_rate : Z) :
  sampling_rate <> 0 ->
  (3 <= List.length cycle)%nat ->
  exists hi lo : R,
    is_maximum (interbeat_intervals cycle sampling_rate) hi /\
    is_minimum (interbeat_intervals cycle sampling_rate) lo /\
    cycle_rsa cycle sampling_rate = F64.Fin (hi - lo) /\
    (0 <= hi - lo)%R.
Proof.
  intros Hsr Hlen. unfold cycle_rsa.
  rewrite (RRis_of_finite _ _ Hsr), length_map, interbeat_intervals_length.
  destruct (Nat.ltb_spec 1 (List.length cycle - 1)) as [_ | Hfew]; [| lia].
  pose proof (interbeat_intervals_length cycle sampling_rate) as Hn.
  destruct (interbeat_intervals cycle sampling_rate) as [| x xs] eqn:E;
    [simpl in Hn; lia |].
  exists (fold_left Rmax xs x), (fold_left Rmin xs x).
  pose proof (fold_Rmax_is_maximum xs x) as Hmax.
  pose proof (fold_Rmin_is_minimum xs x) as Hmin.
  repeat split; try apply Hmax; try apply Hmin.
  - simpl map. unfold F64.amax, F64.amin.
    rewrite F64Facts.fold_max2_Fin, F64Facts.fold_min2_Fin. reflexivity.
  - destruct Hmax as [_ Hub], Hmin as [Hin _].
    specialize (Hub _ Hin). lra.
Qed.

(** C1, as the specification states it (a cycle of at least two beats has
    the range of its inter-beat intervals as estimate), fails: a cycle of
    exactly two beats has one interval, the guard [len(RRis) > 1] is false
    and the estimate stays not-a-number.  (With a sampling rate of zero the
    intervals are infinite and their range is not-a-number as well, whence
    the condition on the sampling rate in the statement.) *)
Lemma p2t_two_beat_cycle_counterexample :
  beats_between 0 10 [2; 5] = [2; 5] /\
  rsa_values_of [0; 10] [2; 5] 1000 = [F64.NaN] /\
  rsa_values_of [0; 10] [1; 4; 9] 0 = [F64.NaN] /\
  ~ p2t_cycle_statement 2.
Proof.
  split; [reflexivity |]. split; [reflexivity |]. split.
  { unfold rsa_values_of, cycle_rsa, RRis_of, F64.of_Z.
    cbn [cycles_rri beats_between filter Z.geb Z.ltb Z.compare Pos.compare
         Pos.compare_cont andb map np_diff List.length Nat.ltb Nat.leb
         F64.div F64.amax F64.amin fold_left].
    change (4 - 1) with 3. change (9 - 4) with 5.
    rewrite F64Facts.Rsign_zero, !F64Facts.Rsign_pos by lra.
    reflexivity. }
  intros claim.
  assert (Hbeats : Nat.le 2 (List.length (beats_between 0 10 [2; 5])))
    by (simpl; lia).
  destruct (claim [0; 10] [2; 5] 1000 0%nat 0 10 ltac:(discriminate)
              eq_refl eq_refl Hbeats)
    as (hi & lo & _ & _ & Hvalue & _).
  rewrite (rsa_values_nth [0; 10] [2; 5] 1000 0%nat 0 10 eq_refl eq_refl)
    in Hvalue.
  rewrite cycle_rsa_few_beats in Hvalue by (simpl; lia).
  discriminate Hvalue.
Qed.

(** C1 (amended): for every respiratory cycle [onset_i, onset_{i+1}) that
    contains at least three beat indices (two intervals), and a sampling
    rate that is not zero, the per-cycle estimate is the largest minus the
    smallest of the successive inter-beat intervals of the beats of that
    half-open interval, and it is not negative.  A cycle with exactly two
    beats has a single interval, and its estimate is the not-a-number
    sentinel, whatever the sampling rate. *)
Theorem p2t_cycle_is_range_of_intervals :
  p2t_cycle_statement 3 /\
  (forall (rsp_onsets rpeaks : list Z) (sampling_rate : Z) (i : nat)
          (cycle_init cycle_end : Z),
      nth_error rsp_onsets i = Some cycle_init ->
      nth_error rsp_onsets (S i) = Some cycle_end ->
      List.length (beats_between cycle_init cycle_end rpeaks) = 2%nat ->
      nth_error (rsa_values_of rsp_onsets rpeaks sampling_rate) i
      = Some F64.NaN).
Proof.
  split.
  - intros rsp_onsets rpeaks sampling_rate i cycle_init cycle_end
           Hsr Hi Hj Hlen.
    rewrite (rsa_values_nth _ _ _ _ _ _ Hi Hj).
    destruct (cycle_rsa_range _ _ Hsr Hlen)
      as (hi & lo & Hmax & Hmin & Hv & Hpos).
    exists hi, lo. rewrite Hv. auto.
  - intros rsp_onsets rpeaks sampling_rate i cycle_init cycle_end Hi Hj Hlen.
    rewrite (rsa_values_nth _ _ _ _ _ _ Hi Hj).
    now rewrite cycle_rsa_few_beats by lia.
Qed.

Lemma p2t_cycle_is_range_of_intervals_witness :
  exists hi lo : R,
    is_maximum (interbeat_intervals (beats_between 0 10 [1; 4; 9]) 1) hi /\
    is_minimum (interbeat_intervals (beats_between 0 10 [1; 4; 9]) 1) lo /\
    nth_error (rsa_values_of [0; 10] [1; 4; 9] 1) 0 = Some (F64.Fin (hi - lo)) /\
    (0 <= hi - lo)%R.
Proof.
  apply (proj1 p2t_cycle_is_range_of_intervals [0; 10] [1; 4; 9] 1 0%nat 0 10).
  - discriminate.
  - reflexivity.
  - reflexivity.
  - simpl. lia.
Defined.

(** The statistics skip the values that are not numbers. *)
Lemma fold_add_replace_nan0 (a : list float64) (acc : float64) :
  fold_left F64.add (replace_nan0 a) acc
  = fold_left F64.add (non_missing a) acc.
Proof.
  revert acc. induction a as [| x a IH]; intros acc; [reflexivity |].
  simpl. destruct (F64.isnan x); simpl.
  - rewrite F64Facts.add_0_r. apply IH.
  - apply IH.
Qed.

Lemma nanmean_non_missing (a : list float64) :
  nanmean a = mean_all (non_missing a).
Proof.
  unfold nanmean, mean_all, F64.sum, count_valid, non_missing.
  now rewrite fold_add_replace_nan0.
Qed.

Lemma fold_add_masked (f : float64 -> float64) (a : list float64) (acc : float64) :
  fold_left F64.add
    (map (fun x => if F64.isnan x then F64.Fin 0 else f x) a) acc
  = fold_left F64.add (map f (non_missing a)) acc.
Proof.
  revert acc. induction a as [| x a IH]; intros acc; [reflexivity |].
  simpl. destruct (F64.isnan x); simpl.
  - rewrite F64Facts.add_0_r. apply IH.
  - apply IH.
Qed.

Lemma nanvar_non_missing (a : list float64) :
  nanvar a 1 = sample_var_all (non_missing a).
Proof.
  unfold nanvar, sample_var_all.
  rewrite nanmean_non_missing. unfold count_valid. fold (non_missing a).
  set (n := List.length (non_missing a)).
  destruct (Nat.leb_spec n 1) as [Hn | Hn].
  - destruct (Z.leb_spec (Z.of_nat n - 1) 0) as [_ | Hz]; [reflexivity | lia].
  - destruct (Z.leb_spec (Z.of_nat n - 1) 0) as [Hz | _]; [lia |].
    unfold F64.sum. rewrite fold_add_masked.
    unfold F64.of_Z, F64.of_nat.
    replace (IZR (Z.of_nat n - 1)) with (INR (n - 1)); [reflexivity |].
    rewrite INR_IZR_INZ. f_equal. lia.
Qed.

Lemma nanstd_non_missing (a : list float64) :
  nanstd a 1 = sample_sd_all (non_missing a).
Proof.
  unfold nanstd, sample_sd_all. now rewrite nanvar_non_missing.
Qed.

Lemma Rsum_squares_nonneg (f : R -> R) (l : list R) :
  (0 <= Rsum (map (fun x => f x * f x) l))%R.
Proof.
  induction l as [| x l IH]; simpl; [lra |].
  pose proof (Rle_0_sqr (f x)) as H. unfold Rsqr in H. lra.
Qed.

Lemma bessel_variance_nonneg (l : list R) :
  (2 <= List.length l)%nat -> (0 <= bessel_variance l)%R.
Proof.
  intros Hn. unfold bessel_variance.
  apply Rmult_le_pos.
  - apply (Rsum_squares_nonneg (fun x => (x - Rmean l)%R)).
  - apply Rlt_le, Rinv_0_lt_compat. apply lt_0_INR. lia.
Qed.

(** On finite values the mean and the sample standard deviation are the
    textbook ones. *)
Lemma mean_all_Fin (xs : list R) :
  xs <> [] -> mean_all (map F64.Fin xs) = F64.Fin (Rmean xs).
Proof.
  intros Hne. unfold mean_all, Rmean.
  rewrite F64Facts.sum_Fin, length_map. unfold F64.of_nat.
  apply F64Facts.div_Fin. apply not_0_INR.
  destruct xs; [contradiction | discriminate].
Qed.

Lemma sample_var_all_Fin (xs : list R) :
  (2 <= List.length xs)%nat ->
  sample_var_all (map F64.Fin xs) = F64.Fin (bessel_variance xs).
Proof.
  intros Hn. unfold sample_var_all. rewrite length_map.
  destruct (Nat.leb_spec (List.length xs) 1) as [Hle | _]; [lia |].
  rewrite mean_all_Fin by (destruct xs; [simpl in Hn; lia | discriminate]).
  rewrite map_map.
  replace (map (fun x => F64.mul (F64.sub (F64.Fin x) (F64.Fin (Rmean xs)))
                                 (F64.sub (F64.Fin x) (F64.Fin (Rmean xs)))) xs)
    with (map F64.Fin (map (fun x => ((x - Rmean xs) * (x - Rmean xs))%R) xs))
    by (rewrite map_map; reflexivity).
  rewrite F64Facts.sum_Fin. unfold F64.of_nat.
  now rewrite F64Facts.div_Fin by (apply not_0_INR; lia).
Qed.

Lemma sample_sd_all_Fin (xs : list R) :
  (2 <= List.length xs)%nat ->
  sample_sd_all (map F64.Fin xs) = F64.Fin (sqrt (bessel_variance xs)).
Proof.
  intros Hn. unfold sample_sd_all. rewrite sample_var_all_Fin by assumption.
  apply F64Facts.sqrt_nonneg. now apply bessel_variance_nonneg.
Qed.

Lemma count_null_missing (a : list float64) :
  count_null a = Z.of_nat (count_missing a).
Proof.
  unfold count_null. f_equal.
  induction a as [| x a IH]; [reflexivity |].
  destruct x; simpl; now rewrite IH.
Qed.

Lemma count_missing_non_missing (a : list float64) :
  (count_missing a + List.length (non_missing a) = List.length a)%nat.
Proof.
  induction a as [| x a IH]; [reflexivity |].
  destruct x; simpl; lia.
Qed.

Lemma rsa_values_length (rsp_onsets rpeaks : list Z) (sampling_rate : Z) :
  List.length (rsa_values_of rsp_onsets rpeaks sampling_rate)
  = (List.length rsp_onsets - 1)%nat.
Proof.
  unfold rsa_values_of. now rewrite length_map, cycles_rri_length.
Qed.

(** The keys of the mapping of the non-continuous mode. *)
Lemma p2t_summary_keys (rsa_values : list float64) :
  dict_get "RSA_P2T_Mean" (p2t_summary rsa_values)
    = Some (PyFloat (nanmean rsa_values)) /\
  dict_get "RSA_P2T_Mean_log" (p2t_summary rsa_values)
    = Some (PyFloat (F64.log (nanmean rsa_values))) /\
  dict_get "RSA_P2T_SD" (p2t_summary rsa_values)
    = Some (PyFloat (nanstd rsa_values 1)) /\
  dict_get "RSA_P2T_NoRSA" (p2t_summary rsa_values)
    = Some (PyInt (count_null rsa_values)).
Proof.
  repeat split; reflexivity.
Qed.

(** C4: a respiratory cycle with fewer than two beats has the not-a-number
    sentinel as value and raises nothing (in the non-continuous mode the
    estimator returns its mapping for every input); the statistics
    RSA_P2T_Mean and RSA_P2T_SD are those of the values that are numbers
    alone, and RSA_P2T_NoRSA is the number of cycles whose value is
    not-a-number. *)
Theorem p2t_missing_cycles :
  forall (rsp_onsets rpeaks : list Z) (sampling_rate : Z),
    let rsa_values := rsa_values_of rsp_onsets rpeaks sampling_rate in
    let rsa := p2t_summary rsa_values in
    (forall (i : nat) (cycle_init cycle_end : Z),
        nth_error rsp_onsets i = Some cycle_init ->
        nth_error rsp_onsets (S i) = Some cycle_end ->
        (List.length (beats_between cycle_init cycle_end rpeaks) < 2)%nat ->
        nth_error rsa_values i = Some F64.NaN) /\
    (forall (signal_interpolate : list Z -> list float64 -> nat -> result (list float64))
            (ecg_period : list float64) (rsp_peaks : list Z),
        _ecg_rsa_p2t signal_interpolate rsp_onsets rpeaks sampling_rate false
                     ecg_period rsp_peaks = Ok (P2T_dict rsa)) /\
    dict_get "RSA_P2T_Mean" rsa
      = Some (PyFloat (mean_all (non_missing rsa_values))) /\
    dict_get "RSA_P2T_SD" rsa
      = Some (PyFloat (sample_sd_all (non_missing rsa_values))) /\
    dict_get "RSA_P2T_NoRSA" rsa
      = Some (PyInt (Z.of_nat (count_missing rsa_values))) /\
    (count_missing rsa_values + List.length (non_missing rsa_values)
     = List.length rsp_onsets - 1)%nat.
Proof.
  intros rsp_onsets rpeaks sampling_rate rsa_values rsa.
  destruct (p2t_summary_keys rsa_values) as (Hmean & _ & Hsd & Hno).
  repeat split.
  - intros i cycle_init cycle_end Hi Hj Hfew. unfold rsa_values.
    rewrite (rsa_values_nth _ _ _ _ _ _ Hi Hj).
    rewrite cycle_rsa_few_beats by lia. reflexivity.
  - unfold rsa. now rewrite Hmean, nanmean_non_missing.
  - unfold rsa. now rewrite Hsd, nanstd_non_missing.
  - unfold rsa. now rewrite Hno, count_null_missing.
  - rewrite count_missing_non_missing. apply rsa_values_length.
Qed.

Lemma p2t_missing_cycles_witness :
  nth_error (rsa_values_of [0; 10; 20] [3; 12; 15; 19] 100) 0 = Some F64.NaN.
Proof.
  apply (proj1 (p2t_missing_cycles [0; 10; 20] [3; 12; 15; 19] 100)
           0%nat 0 10 eq_refl eq_refl).
  simpl. lia.
Defined.

(** C6: RSA_P2T_SD, in the mapping the peak-to-trough estimator returns
    in the non-continuous mode, is the sample standard deviation of the
    per-cycle values that are numbers, with Bessel's correction: on
    [n >= 2] finite values it is the square root of the sum of the squared
    deviations from their mean over [n - 1]; when exactly one cycle has a
    value that is a number it is not-a-number, and so it is not zero. *)
Theorem p2t_sd_bessel :
  forall (signal_interpolate :
            list Z -> list float64 -> nat -> result (list float64))
         (rsp_onsets rpeaks : list Z) (sampling_rate : Z)
         (ecg_period : list float64) (rsp_peaks : list Z),
    let rsa_values := rsa_values_of rsp_onsets rpeaks sampling_rate in
    exists (rsa : dict) (sd : float64),
      _ecg_rsa_p2t signal_interpolate rsp_onsets rpeaks sampling_rate false
                   ecg_period rsp_peaks = Ok (P2T_dict rsa) /\
      dict_get "RSA_P2T_SD" rsa = Some (PyFloat sd) /\
      sd = sample_sd_all (non_missing rsa_values) /\
      (forall xs : list R,
          non_missing rsa_values = map F64.Fin xs ->
          (2 <= List.length xs)%nat ->
          sd = F64.Fin (sqrt (bessel_variance xs))) /\
      (List.length (non_missing rsa_values) = 1%nat ->
       sd = F64.NaN /\ sd <> F64.Fin 0).
Proof.
  intros signal_interpolate rsp_onsets rpeaks sampling_rate ecg_period
         rsp_peaks rsa_values.
  exists (p2t_summary rsa_values), (nanstd rsa_values 1).
  destruct (p2t_summary_keys rsa_values) as (_ & _ & Hsd & _).
  rewrite nanstd_non_missing in *.
  split; [reflexivity |]. split; [exact Hsd |]. split; [reflexivity |]. split.
  - intros xs Hxs Hn. rewrite Hxs. now apply sample_sd_all_Fin.
  - intros Hone. unfold sample_sd_all, sample_var_all. rewrite Hone.
    split; [reflexivity | discriminate].
Qed.

(** Two cycles, the first with three beats and the second with none: one
    value that is a number. *)
Lemma example_single_value :
  List.length (non_missing (rsa_values_of [0; 10; 20] [1; 4; 9] 100)) = 1%nat.
Proof.
  change (rsa_values_of [0; 10; 20] [1; 4; 9] 100)
    with [cycle_rsa [1; 4; 9] 100; cycle_rsa [] 100].
  destruct (cycle_rsa_range [1; 4; 9] 100 ltac:(discriminate)
              ltac:(simpl; lia))
    as (hi & lo & _ & _ & -> & _).
  rewrite (cycle_rsa_few_beats [] 100) by (simpl; lia).
  reflexivity.
Qed.

Lemma p2t_sd_bessel_witness :
  exists (rsa : dict) (sd : float64),
    _ecg_rsa_p2t example_interpolate [0; 10; 20] [1; 4; 9] 100 false
                 [F64.Fin 0] [] = Ok (P2T_dict rsa) /\
    dict_get "RSA_P2T_SD" rsa = Some (PyFloat sd) /\
    sd = F64.NaN /\ sd <> F64.Fin 0.
Proof.
  destruct (p2t_sd_bessel example_interpolate [0; 10; 20] [1; 4; 9] 100
              [F64.Fin 0] [])
    as (rsa & sd & Hrun & Hget & _ & _ & Hone).
  exists rsa, sd. split; [exact Hrun |]. split; [exact Hget |].
  apply Hone. exact example_single_value.
Defined.

(* ================================================================= *)
(** ** Porges-Bohrer: the epochs *)

Lemma epoch_index_div (k : nat) : epoch_index k = Z.of_nat k / 60.
Proof.
  unfold epoch_index. simpl. now rewrite !Z.mul_1_r.
Qed.

Lemma epoch_index_bounds (s i : nat) :
  (epoch_index s ?= Z.of_nat i)
  = (if (s <? 60 * i)%nat then Lt
     else if (s <? 60 * i + 60)%nat then Eq else Gt).
Proof.
  rewrite epoch_index_div.
  pose proof (Z.mul_div_le (Z.of_nat s) 60 ltac:(lia)) as Hlo.
  pose proof (Z.mul_succ_div_gt (Z.of_nat s) 60 ltac:(lia)) as Hhi.
  destruct (Nat.ltb_spec s (60 * i)); [apply Z.compare_lt_iff; lia |].
  destruct (Nat.ltb_spec s (60 * i + 60));
    [apply Z.compare_eq_iff | apply Z.compare_gt_iff]; lia.
Qed.

Lemma epoch_index_monotone (s : nat) : epoch_index s <= epoch_index (S s).
Proof.
  rewrite !epoch_index_div. apply Z.div_le_mono; lia.
Qed.

(** The rows of the frame from position [s] on. *)
Lemma loc_rows (l : list float64) :
  forall (s i count skip : nat),
    count = (60 * i + 60 - Nat.max s (60 * i))%nat ->
    skip = (60 * i - s)%nat ->
    map snd (filter (fun row => fst row =? Z.of_nat i)
               (combine (map epoch_index (seq s (List.length l))) l))
    = firstn count (skipn skip l).
Proof.
  induction l as [| x l IH]; intros s i count skip Hcount Hskip.
  - now rewrite skipn_nil, firstn_nil.
  - simpl List.length. simpl seq. simpl map at 2. simpl combine.
    cbn [filter fst].
    rewrite Z.eqb_compare, epoch_index_bounds.
    destruct (Nat.ltb_spec s (60 * i)) as [Hlt | Hge].
    + rewrite (IH (S s) i count (skip - 1)%nat) by lia.
      replace skip with (S (skip - 1)) at 2 by lia. reflexivity.
    + destruct (Nat.ltb_spec s (60 * i + 60)) as [Hin | Hout].
      * cbn [map snd].
        rewrite (IH (S s) i (count - 1)%nat 0%nat) by lia.
        replace skip with 0%nat by lia.
        replace count with (S (count - 1)) at 2 by lia. reflexivity.
      * rewrite (IH (S s) i 0%nat 0%nat) by lia.
        replace count with 0%nat by lia. reflexivity.
Qed.

Lemma loc_epoch_frame (signal : list float64) (i : nat) :
  (60 * i < List.length signal)%nat ->
  loc (epoch_frame signal) (Z.of_nat i) = Ok (epoch_block i signal).
Proof.
  intros Hi. unfold loc, epoch_frame, epoch_block.
  pose proof (loc_rows signal 0 i 60 (60 * i) ltac:(lia) ltac:(lia)) as Hrows.
  destruct (filter _ _) as [| row rows] eqn:E.
  - exfalso. apply (f_equal (@List.length float64)) in Hrows.
    rewrite length_firstn, length_skipn in Hrows.
    cbn [map List.length] in Hrows. lia.
  - now rewrite Hrows.
Qed.

Lemma fold_max_epoch_index (m : nat) :
  forall (s : nat) (a : Z),
    a <= epoch_index s ->
    fold_left Z.max (map epoch_index (seq s m)) a
    = match m with
      | O => a
      | S m' => epoch_index (s + m')
      end.
Proof.
  induction m as [| m IH]; intros s a Ha; [reflexivity |].
  simpl seq. simpl map. simpl fold_left.
  rewrite (IH (S s) (Z.max a (epoch_index s))).
  - destruct m as [| m'].
    + rewrite Nat.add_0_r. lia.
    + f_equal. lia.
  - pose proof (epoch_index_monotone s). lia.
Qed.

Lemma map_fst_epoch_rows (l : list float64) (s : nat) :
  map fst (combine (map epoch_index (seq s (List.length l))) l)
  = map epoch_index (seq s (List.length l)).
Proof.
  revert s. induction l as [| x l IH]; intros s; [reflexivity |].
  simpl. f_equal. apply IH.
Qed.

Lemma max_index_epoch_frame (signal : list float64) :
  signal <> [] ->
  max_index (epoch_frame signal)
  = Ok (Z.of_nat ((List.length signal - 1) / 60)).
Proof.
  intros Hne. unfold max_index, epoch_frame.
  rewrite map_fst_epoch_rows.
  destruct signal as [| x l]; [contradiction |].
  simpl List.length. simpl seq. simpl map.
  rewrite <- seq_shift, map_map.
  f_equal.
  pose proof (fold_max_epoch_index (List.length l) 1 (epoch_index 0)
                (epoch_index_monotone 0)) as H.
  rewrite <- seq_shift, map_map in H. rewrite H.
  replace (S (List.length l) - 1)%nat with (List.length l) by lia.
  destruct (List.length l) as [| m'] eqn:E.
  - reflexivity.
  - now rewrite epoch_index_div, Nat2Z.inj_div.
Qed.

Lemma epoch_count_pos (n : nat) :
  (0 < n)%nat -> epoch_count n = S ((n - 1) / 60).
Proof.
  intros Hn. unfold epoch_count.
  replace (n + 59)%nat with ((n - 1) + 1 * 60)%nat by lia.
  rewrite Nat.div_add by lia. lia.
Qed.

Lemma collect_Ok {A B : Type} (f : A -> result B) (g : A -> B) (l : list A) :
  (forall a, In a l -> f a = Ok (g a)) ->
  collect (map f l) = Ok (map g l).
Proof.
  induction l as [| a l IH]; intros H; [reflexivity |].
  simpl. rewrite (H a) by now left. simpl.
  rewrite IH by (intros b Hb; apply H; now right). reflexivity.
Qed.

Lemma non_missing_idempotent (a : list float64) :
  non_missing (non_missing a) = non_missing a.
Proof.
  unfold non_missing. induction a as [| x a IH]; [reflexivity |].
  simpl. destruct (F64.isnan x) eqn:E; simpl; [apply IH |].
  rewrite E. simpl. now rewrite IH.
Qed.

(** The epoch loop takes the mean over every block of 60 samples, the
    last and shorter one included. *)
Lemma pb_epochs_blocks : pb_epochs_statement epoch_blocks.
Proof.
  intros signal Hne. unfold pb_epochs.
  rewrite (max_index_epoch_frame signal Hne). cbn [rbind].
  assert (Hn : (0 < List.length signal)%nat)
    by (destruct signal; [contradiction | simpl; lia]).
  replace (Z.to_nat (Z.of_nat ((List.length signal - 1) / 60) + 1))
    with (epoch_count (List.length signal))
    by (rewrite epoch_count_pos by assumption; lia).
  rewrite (collect_Ok _ (fun i => epoch_block i signal)).
  - cbn [rbind]. fold (epoch_blocks signal). unfold pb_estimate_over.
    fold (non_missing (map epoch_log_variance (epoch_blocks signal))).
    destruct (non_missing (map epoch_log_variance (epoch_blocks signal)))
      as [| v vs] eqn:E; [reflexivity |].
    rewrite nanmean_non_missing, <- E, non_missing_idempotent. reflexivity.
  - intros i Hi. apply in_seq in Hi. apply loc_epoch_frame.
    rewrite epoch_count_pos in Hi by assumption.
    pose proof (Nat.Div0.mul_div_le (List.length signal - 1) 60).
    assert (60 * i <= 60 * ((List.length signal - 1) / 60))%nat
      by (apply Nat.mul_le_mono_l; lia).
    lia.
Qed.

(** ** Porges-Bohrer: the log-variance of an epoch *)

Lemma non_missing_Fin (xs : list R) :
  non_missing (map F64.Fin xs) = map F64.Fin xs.
Proof.
  unfold non_missing. induction xs as [| x xs IH]; [reflexivity |].
  simpl. now rewrite IH.
Qed.

Lemma log_Fin_not_nan (r : R) :
  (0 <= r)%R -> F64.isnan (F64.log (F64.Fin r)) = false.
Proof.
  intros Hr. simpl. pose proof (F64Facts.Rsign_spec r) as S.
  destruct (F64.Rsign r); auto. lra.
Qed.

(** An epoch of at least two finite samples: the logarithm of its sample
    variance over 1000. *)
Lemma epoch_log_variance_Fin (xs : list R) :
  (2 <= List.length xs)%nat ->
  epoch_log_variance (map F64.Fin xs)
  = F64.log (F64.Fin (bessel_variance xs / 1000)).
Proof.
  intros Hn. unfold epoch_log_variance.
  rewrite nanvar_non_missing, non_missing_Fin, sample_var_all_Fin by assumption.
  unfold F64.of_Z. now rewrite F64Facts.div_Fin by lra.
Qed.

Lemma epoch_log_variance_contributes (xs : list R) :
  (2 <= List.length xs)%nat ->
  F64.isnan (epoch_log_variance (map F64.Fin xs)) = false.
Proof.
  intros Hn. rewrite epoch_log_variance_Fin by assumption.
  apply log_Fin_not_nan.
  pose proof (bessel_variance_nonneg xs Hn). lra.
Qed.

(** An epoch of fewer than two samples has no sample variance. *)
Lemma epoch_log_variance_short (epoch : list float64) :
  (List.length epoch <= 1)%nat -> epoch_log_variance epoch = F64.NaN.
Proof.
  intros Hn. unfold epoch_log_variance.
  rewrite nanvar_non_missing. unfold sample_var_all.
  assert (Hle : (List.length (non_missing epoch) <= 1)%nat).
  { pose proof (count_missing_non_missing epoch). lia. }
  destruct (Nat.leb_spec (List.length (non_missing epoch)) 1); [| lia].
  reflexivity.
Qed.

Lemma Rsum_repeat (r : R) (m : nat) : Rsum (repeat r m) = (INR m * r)%R.
Proof.
  induction m as [| m IH]; [simpl; ring |].
  rewrite S_INR. simpl. rewrite IH. ring.
Qed.

Lemma Rsum_map_zero (f : R -> R) (l : list R) :
  (forall x, In x l -> f x = 0%R) -> Rsum (map f l) = 0%R.
Proof.
  induction l as [| x l IH]; intros H; [reflexivity |].
  simpl. rewrite (H x) by now left.
  rewrite IH by (intros y Hy; apply H; now right). ring.
Qed.

Lemma bessel_variance_repeat (r : R) (m : nat) :
  (2 <= m)%nat -> bessel_variance (repeat r m) = 0%R.
Proof.
  intros Hm. unfold bessel_variance.
  assert (Hmean : Rmean (repeat r m) = r).
  { unfold Rmean. rewrite Rsum_repeat, repeat_length. field.
    apply not_0_INR. lia. }
  rewrite Rsum_map_zero.
  - unfold Rdiv. ring.
  - intros x Hx. apply repeat_spec in Hx. subst x. rewrite Hmean. ring.
Qed.

(** A constant epoch: minus infinity with two samples or more. *)
Lemma epoch_log_variance_repeat (r : R) (m : nat) :
  epoch_log_variance (repeat (F64.Fin r) m)
  = if (m <=? 1)%nat then F64.NaN else F64.NInf.
Proof.
  destruct (Nat.leb_spec m 1) as [Hm | Hm].
  - apply epoch_log_variance_short. now rewrite repeat_length.
  - replace (repeat (F64.Fin r) m) with (map F64.Fin (repeat r m))
      by apply map_repeat.
    rewrite epoch_log_variance_Fin by (rewrite repeat_length; lia).
    rewrite bessel_variance_repeat by lia.
    replace (0 / 1000)%R with 0%R by lra.
    apply F64Facts.log_zero.
Qed.

Lemma skipn_repeat_count {A : Type} (x : A) (k m : nat) :
  skipn k (repeat x m) = repeat x (m - k).
Proof.
  revert m. induction k as [| k IH]; intros m.
  - now rewrite Nat.sub_0_r.
  - destruct m as [| m]; [reflexivity | apply IH].
Qed.

Lemma firstn_repeat_count {A : Type} (x : A) (k m : nat) :
  firstn k (repeat x m) = repeat x (Nat.min k m).
Proof.
  revert m. induction k as [| k IH]; intros m; [reflexivity |].
  destruct m as [| m]; [reflexivity |]. simpl. now rewrite IH.
Qed.

Lemma epoch_block_repeat (x : float64) (n i : nat) :
  epoch_block i (repeat x n) = repeat x (Nat.min 60 (n - 60 * i)).
Proof.
  unfold epoch_block. now rewrite skipn_repeat_count, firstn_repeat_count.
Qed.

Lemma fold_add_NInf (m : nat) :
  fold_left F64.add (repeat F64.NInf m) F64.NInf = F64.NInf.
Proof.
  induction m as [| m IH]; [reflexivity | exact IH].
Qed.

Lemma mean_all_NInf (k : nat) :
  mean_all (repeat F64.NInf (S k)) = F64.NInf.
Proof.
  unfold mean_all, F64.sum. rewrite repeat_length.
  simpl repeat. simpl fold_left. rewrite fold_add_NInf.
  unfold F64.of_nat, F64.div.
  rewrite F64Facts.Rsign_pos; [reflexivity |].
  apply lt_0_INR. lia.
Qed.

Lemma non_missing_NInf (l : list float64) :
  (forall x, In x l -> x = F64.NInf \/ x = F64.NaN) ->
  non_missing l = repeat F64.NInf (List.length (non_missing l)).
Proof.
  induction l as [| x l IH]; intros H; [reflexivity |].
  assert (IH' := IH (fun y Hy => H y (or_intror Hy))).
  destruct (H x (or_introl eq_refl)) as [-> | ->]; simpl.
  - f_equal. exact IH'.
  - exact IH'.
Qed.

(** A series without variance, of two samples or more: every epoch of two
    samples or more has log-variance minus infinity, which is a number for
    [np.isnan], and the estimate is minus infinity. *)
Lemma pb_epochs_constant (r : R) (n : nat) :
  (2 <= n)%nat ->
  pb_epochs (repeat (F64.Fin r) n)
  = Ok [("RSA_PorgesBohrer", PyFloat F64.NInf)].
Proof.
  intros Hn.
  rewrite pb_epochs_blocks by (destruct n; [lia | discriminate]).
  unfold pb_estimate_over, epoch_blocks. rewrite repeat_length, map_map.
  set (variance := map _ _).
  assert (Hall : forall x, In x variance -> x = F64.NInf \/ x = F64.NaN).
  { intros x Hx. apply in_map_iff in Hx. destruct Hx as (i & <- & _).
    rewrite epoch_block_repeat, epoch_log_variance_repeat.
    destruct (Nat.leb _ 1); auto. }
  assert (Hhead : exists rest, variance = F64.NInf :: rest).
  { unfold variance. rewrite epoch_count_pos by lia.
    simpl seq. simpl map. eexists. f_equal.
    rewrite epoch_block_repeat, epoch_log_variance_repeat.
    destruct (Nat.leb_spec (Nat.min 60 (n - 60 * 0)) 1); [lia | reflexivity]. }
  rewrite (non_missing_NInf variance Hall).
  destruct Hhead as (rest & Hv).
  assert (Hk : exists k, List.length (non_missing variance) = S k).
  { rewrite Hv. simpl. eexists. reflexivity. }
  destruct Hk as (k & ->).
  change (repeat F64.NInf (S k)) with (F64.NInf :: repeat F64.NInf k).
  cbv iota.
  change (F64.NInf :: repeat F64.NInf k) with (repeat F64.NInf (S k)).
  now rewrite mean_all_NInf.
Qed.

Lemma nth_error_epoch_block (signal : list float64) (k : nat) :
  nth_error signal k
  = nth_error (epoch_block (k / 60) signal) (k mod 60).
Proof.
  unfold epoch_block. rewrite nth_error_firstn, nth_error_skipn.
  pose proof (Nat.mod_upper_bound k 60 ltac:(lia)) as Hlt.
  destruct (Nat.ltb_spec (k mod 60) 60); [| lia].
  now rewrite <- Nat.div_mod_eq.
Qed.

Lemma epoch_block_length (signal : list float64) (i : nat) :
  List.length (epoch_block i signal)
  = Nat.min 60 (List.length signal - 60 * i).
Proof.
  unfold epoch_block. now rewrite length_firstn, length_skipn.
Qed.

(** The non-continuous mode hands the filtered residual to the epoch
    loop and returns what the loop returns. *)
Lemma _ecg_rsa_pb_epochs
  (signal_resample : list float64 -> Z -> Z -> result (list float64))
  (signal_filter : list float64 -> Z -> option Q -> option Q ->
                   option string -> option Z -> option Z ->
                   result (list float64))
  (ecg_period : list float64) (sampling_rate : Z)
  (resampled trend zero_mean zero_mean_filtered : list float64) :
  signal_resample ecg_period sampling_rate 2 = Ok resampled ->
  signal_filter resampled 2 (Some 0.095%Q) None (Some "savgol") (Some 3)
                (Some 21) = Ok trend ->
  array_sub resampled trend = Ok zero_mean ->
  signal_filter zero_mean 2 (Some 0.12%Q) (Some 0.40%Q) None None None
    = Ok zero_mean_filtered ->
  _ecg_rsa_pb signal_resample signal_filter ecg_period sampling_rate false
  = rbind (pb_epochs zero_mean_filtered) (fun rsa => Ok (Some rsa)).
Proof.
  intros Hresample Htrend Hsub Hband. unfold _ecg_rsa_pb.
  rewrite Hresample. cbn [rbind]. rewrite Htrend. cbn [rbind].
  rewrite Hsub. cbn [rbind]. rewrite Hband. reflexivity.
Qed.

(** C2, as the specification states it, fails on a series without
    variance: sixty samples equal to zero make one epoch of variance zero,
    whose logarithm is minus infinity and not not-a-number; the epoch is
    kept and the estimate returned is minus infinity.  So it is for a heart
    period of 800 throughout, with a resampler and filters that leave a
    constant series as it is: the residual is zero. *)
Lemma pb_constant_series_counterexample :
  pb_epochs (repeat (F64.Fin 0) 60)
    = Ok [("RSA_PorgesBohrer", PyFloat F64.NInf)] /\
  _ecg_rsa_pb example_resample example_filter (repeat (F64.Fin 800) 60) 2 false
    = Ok (Some [("RSA_PorgesBohrer", PyFloat F64.NInf)]) /\
  ~ pb_constant_statement.
Proof.
  split; [| split].
  - apply pb_epochs_constant. lia.
  - rewrite (_ecg_rsa_pb_epochs example_resample example_filter _ _
               (repeat (F64.Fin 800) 60) (repeat (F64.Fin 800) 60)
               (repeat (F64.Fin (800 + - 800)) 60)
               (repeat (F64.Fin (800 + - 800)) 60)
               eq_refl eq_refl eq_refl eq_refl).
    now rewrite pb_epochs_constant by lia.
  - intros claim. specialize (claim 0%R 60%nat ltac:(lia)).
    rewrite pb_epochs_constant in claim by lia. exact claim.
Qed.

(** C2 (amended): in the non-continuous mode, when no epoch log-variance
    that is a number remains after the epoch loop, the computation raises
    (the [ValueError] of concatenating nothing, or of the maximum of an
    empty index) and returns no value.  An epoch whose variance is zero is
    not such a case: its log-variance is minus infinity, which is kept, and
    a value is returned; for a residual of two or more samples that are
    all zero that value is minus infinity. *)
Theorem pb_zero_valid_epochs :
  (forall zero_mean_filtered : list float64,
      non_missing (map epoch_log_variance (epoch_blocks zero_mean_filtered)) = [] ->
      exists msg : string,
        pb_epochs zero_mean_filtered = Err (ValueError msg)) /\
  (forall zero_mean_filtered : list float64,
      In F64.NInf
         (map epoch_log_variance (epoch_blocks zero_mean_filtered)) ->
      exists v : float64,
        pb_epochs zero_mean_filtered
        = Ok [("RSA_PorgesBohrer", PyFloat v)]) /\
  (forall n : nat,
      (2 <= n)%nat ->
      pb_epochs (repeat (F64.Fin 0) n)
      = Ok [("RSA_PorgesBohrer", PyFloat F64.NInf)]) /\
  (forall (signal_resample : list float64 -> Z -> Z -> result (list float64))
          (signal_filter : list float64 -> Z -> option Q -> option Q ->
                           option string -> option Z -> option Z ->
                           result (list float64))
          (ecg_period : list float64) (sampling_rate : Z)
          (resampled trend zero_mean zero_mean_filtered : list float64),
      signal_resample ecg_period sampling_rate 2 = Ok resampled ->
      signal_filter resampled 2 (Some 0.095%Q) None (Some "savgol") (Some 3)
                    (Some 21) = Ok trend ->
      array_sub resampled trend = Ok zero_mean ->
      signal_filter zero_mean 2 (Some 0.12%Q) (Some 0.40%Q) None None None
        = Ok zero_mean_filtered ->
      _ecg_rsa_pb signal_resample signal_filter ecg_period sampling_rate false
      = rbind (pb_epochs zero_mean_filtered) (fun rsa => Ok (Some rsa))).
Proof.
  split; [| split; [| split]].
  - intros signal Hnone. destruct signal as [| x signal].
    + eexists. reflexivity.
    + rewrite pb_epochs_blocks by discriminate.
      unfold pb_estimate_over. rewrite Hnone. eexists. reflexivity.
  - intros signal Hkept. destruct signal as [| x signal]; [destruct Hkept |].
    rewrite pb_epochs_blocks by discriminate. unfold pb_estimate_over.
    destruct (non_missing (map epoch_log_variance (epoch_blocks (x :: signal))))
      as [| v values] eqn:E; [| eexists; reflexivity].
    assert (Hin : In F64.NInf
                     (non_missing
                        (map epoch_log_variance (epoch_blocks (x :: signal)))))
      by (apply filter_In; split; [exact Hkept | reflexivity]).
    rewrite E in Hin. destruct Hin.
  - exact (pb_epochs_constant 0).
  - exact _ecg_rsa_pb_epochs.
Qed.

Lemma pb_zero_valid_epochs_witness :
  exists msg : string, pb_epochs [F64.Fin 5] = Err (ValueError msg).
Proof.
  apply (proj1 pb_zero_valid_epochs [F64.Fin 5]).
  reflexivity.
Defined.

(** C3, as the specification states it (only complete epochs contribute),
    fails: two samples, one second of signal, make no complete epoch, and
    the loop returns the log-variance of that partial epoch. *)
Lemma pb_partial_epoch_counterexample :
  complete_epochs [F64.Fin 0; F64.Fin 1] = [] /\
  pb_epochs [F64.Fin 0; F64.Fin 1]
    = Ok [("RSA_PorgesBohrer",
           PyFloat (mean_all [epoch_log_variance [F64.Fin 0; F64.Fin 1]]))] /\
  ~ pb_epochs_statement complete_epochs.
Proof.
  assert (Hcode :
    pb_epochs [F64.Fin 0; F64.Fin 1]
    = Ok [("RSA_PorgesBohrer",
           PyFloat (mean_all [epoch_log_variance [F64.Fin 0; F64.Fin 1]]))]).
  { rewrite pb_epochs_blocks by discriminate.
    change (epoch_blocks [F64.Fin 0; F64.Fin 1])
      with [map F64.Fin [0%R; 1%R]].
    unfold pb_estimate_over, non_missing.
    change (map epoch_log_variance [map F64.Fin [0%R; 1%R]])
      with [epoch_log_variance (map F64.Fin [0%R; 1%R])].
    cbn [filter].
    rewrite epoch_log_variance_contributes by (simpl; lia).
    reflexivity. }
  split; [reflexivity |]. split; [exact Hcode |].
  intros claim. specialize (claim [F64.Fin 0; F64.Fin 1] ltac:(discriminate)).
  rewrite Hcode in claim. discriminate claim.
Qed.

(** C3 (amended): the filtered residual is cut into consecutive epochs of
    30 seconds by the index floor(sample time / 30), that is blocks of 60
    samples at 2 Hz; every epoch contributes, the last and shorter one
    included; the value of an epoch is the natural logarithm of its sample
    variance over 1000; the values that are not numbers (an epoch of a
    single sample) are dropped, and the estimate is the arithmetic mean of
    the remaining ones. *)
Theorem pb_mean_of_epoch_log_variances :
  pb_epochs_statement epoch_blocks /\
  (forall (signal : list float64) (k : nat),
      epoch_index k = Z.of_nat (k / 60) /\
      nth_error signal k = nth_error (epoch_block (k / 60) signal) (k mod 60)) /\
  (forall (signal : list float64) (i : nat),
      List.length (epoch_block i signal)
      = Nat.min 60 (List.length signal - 60 * i)) /\
  (forall xs : list R,
      (2 <= List.length xs)%nat ->
      (0 < bessel_variance xs)%R ->
      epoch_log_variance (map F64.Fin xs)
      = F64.Fin (ln (bessel_variance xs / 1000))) /\
  (forall epoch : list float64,
      (List.length epoch <= 1)%nat -> epoch_log_variance epoch = F64.NaN).
Proof.
  split; [exact pb_epochs_blocks |].
  split; [| split; [exact epoch_block_length | split]].
  - intros signal k. split.
    + now rewrite epoch_index_div, Nat2Z.inj_div.
    + apply nth_error_epoch_block.
  - intros xs Hn Hpos. rewrite epoch_log_variance_Fin by assumption.
    apply F64Facts.log_pos. lra.
  - exact epoch_log_variance_short.
Qed.

Lemma pb_mean_of_epoch_log_variances_witness :
  pb_epochs [F64.Fin 0; F64.Fin 1]
  = pb_estimate_over (epoch_blocks [F64.Fin 0; F64.Fin 1]).
Proof.
  apply (proj1 pb_mean_of_epoch_log_variances).
  discriminate.
Defined.

(* ================================================================= *)
(** ** Respiratory cycles *)

Module Intersect.

Lemma insert_sorted_perm (x : Z) (l : list Z) :
  Permutation (insert_sorted x l) (x :: l).
Proof.
  induction l as [| y l IH]; simpl; [reflexivity |].
  destruct (x <=? y); [reflexivity |].
  rewrite IH. apply perm_swap.
Qed.

Lemma np_sort_perm (l : list Z) : Permutation (np_sort l) l.
Proof.
  induction l as [| x l IH]; simpl; [reflexivity |].
  rewrite insert_sorted_perm. now constructor.
Qed.

Lemma insert_sorted_sorted (x : Z) (l : list Z) :
  StronglySorted Z.le l -> StronglySorted Z.le (insert_sorted x l).
Proof.
  induction 1 as [| y l Hl IH Hy]; simpl.
  - repeat constructor.
  - destruct (Z.leb_spec x y) as [Hxy | Hxy].
    + constructor; [now constructor |].
      constructor; [assumption |].
      eapply Forall_impl; [| exact Hy]. intros z Hz. simpl in Hz. lia.
    + constructor; [assumption |].
      eapply Permutation_Forall; [symmetry; apply insert_sorted_perm |].
      constructor; [lia | assumption].
Qed.

Lemma np_sort_sorted (l : list Z) : StronglySorted Z.le (np_sort l).
Proof.
  induction l as [| x l IH]; simpl; [constructor |].
  now apply insert_sorted_sorted.
Qed.

Lemma sorted_lt_NoDup (l : list Z) : StronglySorted Z.lt l -> NoDup l.
Proof.
  induction 1 as [| x l Hl IH Hx]; constructor; [| assumption].
  intros Hin. rewrite Forall_forall in Hx. specialize (Hx x Hin). lia.
Qed.

(** Two strictly increasing lists with the same elements are equal. *)
Lemma sorted_lt_ext (l1 l2 : list Z) :
  StronglySorted Z.lt l1 -> StronglySorted Z.lt l2 ->
  (forall x, In x l1 <-> In x l2) -> l1 = l2.
Proof.
  intros H1. revert l2.
  induction H1 as [| a t1 Ht1 IH Ha]; intros l2 H2 Hext.
  - destruct l2 as [| b t2]; [reflexivity |].
    destruct (proj2 (Hext b) (or_introl eq_refl)).
  - destruct H2 as [| b t2 Ht2 Hb].
    + destruct (proj1 (Hext a) (or_introl eq_refl)).
    + rewrite Forall_forall in Ha, Hb.
      assert (a = b).
      { destruct (proj1 (Hext a) (or_introl eq_refl)) as [Hab | Hab];
          [now symmetry |].
        destruct (proj2 (Hext b) (or_introl eq_refl)) as [Hba | Hba];
          [assumption |].
        specialize (Ha b Hba). specialize (Hb a Hab). lia. }
      subst b. f_equal. apply IH; [assumption |].
      intros x. split; intros Hx.
      * destruct (proj1 (Hext x) (or_intror Hx)) as [Hax | Hxt];
          [| assumption].
        specialize (Ha x Hx). lia.
      * destruct (proj2 (Hext x) (or_intror Hx)) as [Hax | Hxt];
          [| assumption].
        specialize (Hb x Hx). lia.
Qed.

(** In a sorted array the elements equal to their successor are those
    that occur at least twice. *)
Lemma adjacent_equal_In (aux : list Z) :
  StronglySorted Z.le aux ->
  forall x, In x (adjacent_equal aux) <-> (2 <= count_occ Z.eq_dec aux x)%nat.
Proof.
  induction 1 as [| a aux Haux IH Ha]; intros x.
  - simpl. split; [contradiction | lia].
  - destruct aux as [| b rest].
    + simpl. destruct (Z.eq_dec a x); split; try contradiction; lia.
    + change (adjacent_equal (a :: b :: rest))
        with (if b =? a then a :: adjacent_equal (b :: rest)
              else adjacent_equal (b :: rest)).
      specialize (IH x).
      destruct (Z.eqb_spec b a) as [Hba | Hba].
      * subst b. destruct (Z.eq_dec a x) as [Hax | Hax].
        -- subst x. rewrite count_occ_cons_eq by reflexivity.
           rewrite (count_occ_cons_eq Z.eq_dec rest (x := a) (y := a)) by reflexivity.
           split; [lia | now left].
        -- rewrite (count_occ_cons_neq Z.eq_dec (a :: rest) Hax).
           rewrite <- IH. split; [intros [H | H]; [contradiction | assumption]
                                 | now right].
      * assert (Hnot : ~ In a (b :: rest)).
        { intros Hin. rewrite Forall_forall in Ha.
          inversion Haux as [| ? ? _ Hb]; subst.
          rewrite Forall_forall in Hb.
          pose proof (Ha b (or_introl eq_refl)).
          destruct Hin as [Hin | Hin]; [congruence |].
          specialize (Hb a Hin). lia. }
        destruct (Z.eq_dec a x) as [Hax | Hax].
        -- subst x. rewrite count_occ_cons_eq by reflexivity.
           apply (count_occ_not_In Z.eq_dec) in Hnot as Hzero.
           rewrite Hzero. rewrite IH, Hzero. lia.
        -- rewrite (count_occ_cons_neq Z.eq_dec (b :: rest) Hax). exact IH.
Qed.

Lemma adjacent_equal_incl (aux : list Z) :
  forall x, In x (adjacent_equal aux) -> In x aux.
Proof.
  induction aux as [| a aux IH]; intros x; [contradiction |].
  destruct aux as [| b rest]; [contradiction |].
  change (adjacent_equal (a :: b :: rest))
    with (if b =? a then a :: adjacent_equal (b :: rest)
          else adjacent_equal (b :: rest)).
  destruct (b =? a).
  - intros [<- | Hx]; [now left | right; now apply IH].
  - intros Hx. right. now apply IH.
Qed.

Lemma adjacent_equal_sorted (aux : list Z) :
  StronglySorted Z.le aux ->
  (forall x, (count_occ Z.eq_dec aux x <= 2)%nat) ->
  StronglySorted Z.lt (adjacent_equal aux).
Proof.
  induction 1 as [| a aux Haux IH Ha]; intros Hcount; [constructor |].
  destruct aux as [| b rest]; [constructor |].
  assert (Hcount' : forall x, (count_occ Z.eq_dec (b :: rest) x <= 2)%nat).
  { intros x. specialize (Hcount x).
    destruct (Z.eq_dec a x) as [Hax | Hax].
    - rewrite (count_occ_cons_eq Z.eq_dec (b :: rest) Hax) in Hcount. lia.
    - now rewrite (count_occ_cons_neq Z.eq_dec (b :: rest) Hax) in Hcount. }
  change (adjacent_equal (a :: b :: rest))
    with (if b =? a then a :: adjacent_equal (b :: rest)
          else adjacent_equal (b :: rest)).
  destruct (Z.eqb_spec b a) as [Hba | Hba]; [| now apply IH].
  constructor; [now apply IH |].
  apply Forall_forall. intros y Hy.
  pose proof (adjacent_equal_incl _ _ Hy) as Hin.
  rewrite Forall_forall in Ha. specialize (Ha y Hin).
  apply (adjacent_equal_In _ Haux) in Hy.
  specialize (Hcount y).
  destruct (Z.eq_dec a y) as [Hay | Hay]; [| lia].
  rewrite (count_occ_cons_eq Z.eq_dec (b :: rest) Hay) in Hcount. lia.
Qed.

(** On arrays without repetition [intersect1d] returns, in increasing
    order, the elements of both. *)
Lemma intersect1d_In (ar1 ar2 : list Z) :
  NoDup ar1 -> NoDup ar2 ->
  forall x, In x (intersect1d ar1 ar2) <-> In x ar1 /\ In x ar2.
Proof.
  intros H1 H2 x. unfold intersect1d.
  rewrite (adjacent_equal_In _ (np_sort_sorted _)).
  rewrite (proj1 (Permutation_count_occ Z.eq_dec _ _) (np_sort_perm _)).
  rewrite count_occ_app.
  rewrite (NoDup_count_occ Z.eq_dec) in H1, H2.
  specialize (H1 x). specialize (H2 x).
  rewrite !(count_occ_In Z.eq_dec). lia.
Qed.

Lemma intersect1d_sorted (ar1 ar2 : list Z) :
  NoDup ar1 -> NoDup ar2 -> StronglySorted Z.lt (intersect1d ar1 ar2).
Proof.
  intros H1 H2. unfold intersect1d.
  apply adjacent_equal_sorted; [apply np_sort_sorted |].
  intros x.
  rewrite (proj1 (Permutation_count_occ Z.eq_dec _ _) (np_sort_perm _)).
  rewrite count_occ_app.
  rewrite (NoDup_count_occ Z.eq_dec) in H1, H2.
  specialize (H1 x). specialize (H2 x). lia.
Qed.

End Intersect.

Lemma where_from_In (mask : list bool) :
  forall (s z : Z),
    In z (where_from s mask)
    <-> exists i : nat, z = s + Z.of_nat i /\ nth_error mask i = Some true.
Proof.
  induction mask as [| b mask IH]; intros s z.
  - simpl. split; [contradiction |]. intros (i & _ & H). destruct i; discriminate.
  - assert (Hrest : In z (where_from (s + 1) mask)
                    <-> exists i, z = s + Z.of_nat (S i)
                                  /\ nth_error mask i = Some true).
    { rewrite IH. split; intros (i & -> & H); exists i; split; auto; lia. }
    simpl where_from. split.
    + intros Hin.
      assert (Hcases : (b = true /\ z = s) \/ In z (where_from (s + 1) mask)).
      { destruct b; [destruct Hin as [<- | Hin] |]; auto. }
      destruct Hcases as [[-> ->] | Hin'].
      * exists 0%nat. split; [lia | reflexivity].
      * apply Hrest in Hin'. destruct Hin' as (i & -> & H).
        exists (S i). auto.
    + intros (i & -> & H). destruct i as [| i].
      * simpl in H. inversion H; subst b. left. lia.
      * assert (Hin : In (s + Z.of_nat (S i)) (where_from (s + 1) mask))
          by (apply Hrest; eauto).
        destruct b; [now right | assumption].
Qed.

Lemma where_from_sorted (mask : list bool) :
  forall s : Z, StronglySorted Z.lt (where_from s mask).
Proof.
  induction mask as [| b mask IH]; intros s; simpl; [constructor |].
  destruct b; [| apply IH].
  constructor; [apply IH |].
  apply Forall_forall. intros z Hz.
  apply where_from_In in Hz. destruct Hz as (i & -> & _). lia.
Qed.

Lemma np_where_In (mask : list bool) (z : Z) :
  In z (np_where mask)
  <-> exists i : nat, z = Z.of_nat i /\ nth_error mask i = Some true.
Proof.
  unfold np_where. rewrite where_from_In. reflexivity.
Qed.

Lemma filter_seq_sorted (f : nat -> bool) (n : nat) :
  forall s : nat, StronglySorted Z.lt (map Z.of_nat (filter f (seq s n))).
Proof.
  induction n as [| n IH]; intros s; simpl; [constructor |].
  destruct (f s); [| apply IH].
  simpl. constructor; [apply IH |].
  apply Forall_forall. intros z Hz.
  apply in_map_iff in Hz. destruct Hz as (i & <- & Hi).
  apply filter_In in Hi. destruct Hi as [Hi _].
  apply in_seq in Hi. lia.
Qed.

Lemma onset_rows_In (phase completion : column) (label : float64) (z : Z) :
  In z (onset_rows phase completion label)
  <-> exists (i : nat) (p c : float64),
        z = Z.of_nat i /\
        nth_error phase i = Some p /\ nth_error completion i = Some c /\
        F64.eqb p label = true /\ F64.eqb c (F64.Fin 0) = true.
Proof.
  unfold onset_rows. rewrite in_map_iff. split.
  - intros (i & <- & Hi). apply filter_In in Hi. destruct Hi as [_ Hi].
    destruct (nth_error phase i) as [p |] eqn:Ep; [| discriminate].
    destruct (nth_error completion i) as [c |] eqn:Ec; [| discriminate].
    apply andb_true_iff in Hi. destruct Hi as [Hp Hc].
    exists i, p, c. repeat split; (reflexivity || assumption).
  - intros (i & p & c & -> & Hp & Hc & Hpl & Hc0).
    exists i. split; [reflexivity |]. apply filter_In. split.
    + apply in_seq. split; [lia |]. simpl.
      apply nth_error_Some. congruence.
    + now rewrite Hp, Hc, Hpl, Hc0.
Qed.

(** The onsets the extractor computes are the rows where the phase has
    the label and the phase completion is zero. *)
Lemma intersect1d_onset_rows (phase completion : column) (label : float64) :
  intersect1d (np_where (eq_scalar phase label))
              (np_where (eq_scalar completion (F64.Fin 0)))
  = onset_rows phase completion label.
Proof.
  assert (Hnd : forall mask, NoDup (np_where mask))
    by (intros mask; apply Intersect.sorted_lt_NoDup, where_from_sorted).
  apply Intersect.sorted_lt_ext.
  - apply Intersect.intersect1d_sorted; apply Hnd.
  - apply filter_seq_sorted.
  - intros z. rewrite Intersect.intersect1d_In by apply Hnd.
    rewrite !np_where_In, onset_rows_In. unfold eq_scalar. split.
    + intros [(i & -> & Hi) (j & Hj & Hj')].
      apply Nat2Z.inj in Hj. subst j.
      rewrite nth_error_map in Hi, Hj'.
      destruct (nth_error phase i) as [p |] eqn:Ep; [| discriminate].
      destruct (nth_error completion i) as [c |] eqn:Ec; [| discriminate].
      simpl in Hi, Hj'. exists i, p, c.
      repeat split; congruence.
    + intros (i & p & c & -> & Hp & Hc & Hpl & Hc0).
      split; exists i; (split; [reflexivity |]);
        rewrite nth_error_map; [rewrite Hp | rewrite Hc]; simpl; congruence.
Qed.

(** Decide the comparisons of literal reals left by an evaluation. *)
Ltac decide_reals :=
  repeat match goal with
         | |- context [Req_dec_T ?a ?b] =>
             destruct (Req_dec_T a b); try (exfalso; lra)
         end.

Lemma example_onsets :
  onset_rows example_phase example_completion (F64.Fin 1) = [0; 6] /\
  onset_rows example_phase example_completion (F64.Fin 0) = [3; 8].
Proof.
  unfold onset_rows, example_phase, example_completion.
  cbn [map List.length seq filter nth_error F64.eqb andb].
  split; decide_reals; reflexivity.
Qed.

Lemma example_signals_unique_labels : unique_labels example_signals.
Proof.
  repeat constructor; simpl; intuition discriminate.
Qed.

Lemma _ecg_rsa_cycles_onsets (signals : DataFrame) (phase completion : column) :
  getitem signals "RSP_Phase" = Ok phase ->
  getitem signals "RSP_Phase_Completion" = Ok completion ->
  _ecg_rsa_cycles signals
  = Ok {| RSP_Inspiration_Onsets := onset_rows phase completion (F64.Fin 1);
          RSP_Expiration_Onsets := onset_rows phase completion (F64.Fin 0);
          RSP_Cycles_Length :=
            np_diff (onset_rows phase completion (F64.Fin 1)) |}.
Proof.
  intros Hphase Hcompletion. unfold _ecg_rsa_cycles.
  rewrite Hphase. cbn [rbind]. rewrite Hcompletion. cbn [rbind].
  now rewrite !intersect1d_onset_rows.
Qed.

(** C5: the cycle extractor returns as inspiration onsets the row indices
    where the phase is 1 and the phase completion is 0, as expiration
    onsets the row indices where the phase is 0 and the phase completion is
    0, both in increasing order, and as cycle lengths the differences of
    consecutive inspiration onsets, one fewer than the onsets; for the
    phase sequence [1,1,1,0,0,0,1,1,0,0] with the completion back at zero
    on rows 0, 3, 6 and 8 the inspiration onsets are 0 and 6, the
    expiration onsets 3 and 8, and the only cycle length is 6. *)
Theorem cycles_onsets_and_lengths :
  (forall (signals : DataFrame) (phase completion : column),
      unique_labels signals ->
      getitem signals "RSP_Phase" = Ok phase ->
      getitem signals "RSP_Phase_Completion" = Ok completion ->
      exists cycles : rsp_cycles,
        _ecg_rsa_cycles signals = Ok cycles /\
        (forall z : Z,
            In z (RSP_Inspiration_Onsets cycles)
            <-> exists (i : nat) (p c : float64),
                  z = Z.of_nat i /\
                  nth_error phase i = Some p /\
                  nth_error completion i = Some c /\
                  F64.eqb p (F64.Fin 1) = true /\
                  F64.eqb c (F64.Fin 0) = true) /\
        (forall z : Z,
            In z (RSP_Expiration_Onsets cycles)
            <-> exists (i : nat) (p c : float64),
                  z = Z.of_nat i /\
                  nth_error phase i = Some p /\
                  nth_error completion i = Some c /\
                  F64.eqb p (F64.Fin 0) = true /\
                  F64.eqb c (F64.Fin 0) = true) /\
        StronglySorted Z.lt (RSP_Inspiration_Onsets cycles) /\
        StronglySorted Z.lt (RSP_Expiration_Onsets cycles) /\
        List.length (RSP_Cycles_Length cycles)
          = (List.length (RSP_Inspiration_Onsets cycles) - 1)%nat /\
        (forall k : nat,
            (S k < List.length (RSP_Inspiration_Onsets cycles))%nat ->
            nth k (RSP_Cycles_Length cycles) 0
            = nth (S k) (RSP_Inspiration_Onsets cycles) 0
              - nth k (RSP_Inspiration_Onsets cycles) 0)) /\
  _ecg_rsa_cycles example_signals
  = Ok {| RSP_Inspiration_Onsets := [0; 6];
          RSP_Expiration_Onsets := [3; 8];
          RSP_Cycles_Length := [6] |}.
Proof.
  split.
  - intros signals phase completion _ Hphase Hcompletion.
    eexists.
    split; [exact (_ecg_rsa_cycles_onsets _ _ _ Hphase Hcompletion) |].
    cbn [RSP_Inspiration_Onsets RSP_Expiration_Onsets RSP_Cycles_Length].
    split; [apply onset_rows_In |]. split; [apply onset_rows_In |].
    split; [apply filter_seq_sorted |]. split; [apply filter_seq_sorted |].
    split; [apply np_diff_length |].
    intros k Hk. rewrite np_diff_nth.
    set (onsets := onset_rows phase completion (F64.Fin 1)) in *.
    rewrite (nth_indep _ 0 (nth (S 0) onsets 0 - nth 0%nat onsets 0))
      by (rewrite length_map, length_seq; lia).
    rewrite (map_nth (fun k => nth (S k) onsets 0 - nth k onsets 0)).
    rewrite seq_nth by lia. reflexivity.
  - rewrite (_ecg_rsa_cycles_onsets example_signals example_phase
               example_completion eq_refl eq_refl).
    destruct example_onsets as [-> ->]. reflexivity.
Qed.

Lemma cycles_onsets_and_lengths_witness :
  exists cycles : rsp_cycles,
    _ecg_rsa_cycles example_signals = Ok cycles /\
    StronglySorted Z.lt (RSP_Inspiration_Onsets cycles) /\
    List.length (RSP_Cycles_Length cycles)
      = (List.length (RSP_Inspiration_Onsets cycles) - 1)%nat.
Proof.
  destruct (proj1 cycles_onsets_and_lengths example_signals example_phase
              example_completion example_signals_unique_labels
              eq_refl eq_refl)
    as (cycles & Hrun & _ & _ & Hsorted & _ & Hlen & _).
  exists cycles. auto.
Defined.

(* ================================================================= *)
(** ** The input formatter and the entry point *)

Lemma bind_Ok_inv {A B : Type} (m : M A) (k : A -> M B) (out : list string) (b : B) :
  bind m k = (out, Ok b) ->
  exists (o1 : list string) (a : A) (o2 : list string),
    m = (o1, Ok a) /\ k a = (o2, Ok b) /\ out = o1 ++ o2.
Proof.
  unfold bind. destruct m as [o1 [a | e]]; [| discriminate].
  destruct (k a) as [o2 r] eqn:E. intros H. inversion H; subst.
  exists o1, a, o2. auto.
Qed.

Lemma bind_Ok_left {A B : Type} (m : M A) (k : A -> M B) (o1 : list string) (a : A) :
  m = (o1, Ok a) -> bind m k = (o1 ++ fst (k a), snd (k a)).
Proof.
  intros ->. unfold bind. now destruct (k a).
Qed.

Lemma bind_Err_left {A B : Type} (m : M A) (k : A -> M B) (o1 : list string) (e : exn) :
  m = (o1, Err e) -> bind m k = (o1, Err e).
Proof.
  now intros ->.
Qed.

Lemma lift_Ok_inv {A : Type} (r : result A) (out : list string) (a : A) :
  lift r = (out, Ok a) -> r = Ok a /\ out = [].
Proof.
  unfold lift. intros H. inversion H. auto.
Qed.

Lemma filter_none {A : Type} (f : A -> bool) (l : list A) :
  (forall x, In x l -> f x = false) -> filter f l = [].
Proof.
  induction l as [| x l IH]; intros H; [reflexivity |].
  simpl. rewrite (H x) by now left. apply IH. intros y Hy. apply H. now right.
Qed.

(** [sub in s] holds exactly when [sub] occurs in [s] at some position. *)
Lemma str_in_true (sub s : string) :
  str_in sub s = true ->
  exists m : nat, substring m (String.length sub) s = sub.
Proof.
  unfold str_in. destruct (index 0 sub s) as [m |] eqn:E; [| discriminate].
  intros _. exists m. now apply (index_correct1 0).
Qed.

Lemma str_in_false (sub s : string) :
  sub <> "" ->
  str_in sub s = false ->
  forall m : nat, substring m (String.length sub) s <> sub.
Proof.
  unfold str_in. destruct (index 0 sub s) as [m |] eqn:E; [discriminate |].
  intros Hne _ m. apply (index_correct3 0); [assumption | assumption | lia].
Qed.

Lemma onset_rows_none (phase completion : column) :
  no_inspiration_onset phase completion ->
  onset_rows phase completion (F64.Fin 1) = [].
Proof.
  intros Hnone.
  destruct (onset_rows phase completion (F64.Fin 1)) as [| z rest] eqn:E;
    [reflexivity |].
  assert (Hin : In z (onset_rows phase completion (F64.Fin 1)))
    by (rewrite E; now left).
  apply onset_rows_In in Hin.
  destruct Hin as (i & p & c & _ & Hp & Hc & Hp1 & Hc0).
  specialize (Hnone i p c Hp Hc). rewrite Hp1, Hc0 in Hnone. discriminate.
Qed.

(** The epoch loop returns a mapping with the single Porges-Bohrer key. *)
Lemma pb_epochs_shape (zero_mean_filtered : list float64) (rsa : dict) :
  pb_epochs zero_mean_filtered = Ok rsa ->
  exists v : float64, rsa = [("RSA_PorgesBohrer", PyFloat v)].
Proof.
  unfold pb_epochs.
  destruct (max_index _) as [top | e]; [| discriminate]. cbn [rbind].
  destruct (collect _) as [epochs | e]; [| discriminate]. cbn [rbind].
  destruct (filter _ _) as [| v vs]; [discriminate |].
  intros H. inversion H. eexists. reflexivity.
Qed.

Section PackageFacts.

Variable pyobject : Type.
Variable signal_interpolate :
  list Z -> list float64 -> nat -> result (list float64).
Variable signal_resample : list float64 -> Z -> Z -> result (list float64).
Variable signal_filter :
  list float64 -> Z -> option Q -> option Q ->
  option string -> option Z -> option Z -> result (list float64).
Variable signal_rate : option pyobject -> Z -> nat -> result (list float64).
Variable ecg_rsp : list float64 -> Z -> result (list float64).
Variable rsp_process : list float64 -> Z -> result DataFrame.
Variable _signal_formatpeaks_sanitize : DataFrame + pyobject -> result (list Z).

Local Abbreviation formatinput :=
  (_ecg_rsa_formatinput pyobject signal_rate ecg_rsp rsp_process
     _signal_formatpeaks_sanitize).

Local Abbreviation entry :=
  (ecg_rsa pyobject signal_interpolate signal_resample signal_filter
     signal_rate ecg_rsp rsp_process _signal_formatpeaks_sanitize).

Local Abbreviation body :=
  (ecg_rsa_body signal_interpolate signal_resample signal_filter).

Local Abbreviation period_stage := (heart_period pyobject signal_rate).

Local Abbreviation rsp_stage := (respiration_table pyobject ecg_rsp rsp_process).

Local Abbreviation rpeaks_stage :=
  (beat_indices pyobject _signal_formatpeaks_sanitize).

Lemma _ecg_rsa_pb_shape (ecg_period : list float64) (sampling_rate : Z)
  (rsa_pb : option dict) :
  _ecg_rsa_pb signal_resample signal_filter ecg_period sampling_rate false
    = Ok rsa_pb ->
  exists v : float64, rsa_pb = Some [("RSA_PorgesBohrer", PyFloat v)].
Proof.
  unfold _ecg_rsa_pb.
  destruct (signal_resample _ _ _) as [resampled | e]; [| discriminate].
  cbn [rbind].
  destruct (signal_filter resampled _ _ _ _ _ _) as [trend | e];
    [| discriminate].
  cbn [rbind].
  destruct (array_sub _ _) as [zero_mean | e]; [| discriminate]. cbn [rbind].
  destruct (signal_filter zero_mean _ _ _ _ _ _) as [filtered | e];
    [| discriminate].
  cbn [rbind].
  destruct (pb_epochs filtered) as [rsa | e] eqn:E; [| discriminate].
  cbn [rbind]. intros H. inversion H.
  destruct (pb_epochs_shape _ _ E) as (v & ->). eexists. reflexivity.
Qed.

(** The formatter as the sequence of its stages, on the frame it reads
    and the beat indices it keeps. *)
Lemma formatinput_stages (ecg_signals : table_arg pyobject)
  (rsp_signals : option (table_arg pyobject)) (rpeaks : option pyobject)
  (sampling_rate : Z) :
  formatinput ecg_signals rsp_signals rpeaks sampling_rate
  = (let df := frame_of ecg_signals in
     let kept := effective_rpeaks ecg_signals rpeaks in
     ecg_period <- period_stage df kept sampling_rate ;;
     rsp <- rsp_stage df rsp_signals ecg_period sampling_rate ;;
     indices <- rpeaks_stage df kept ;;
     let signals :=
       match rsp with
       | Some r => concat_columns df r
       | None => df
       end in
     rsp_signal <- respiration_signal signals ;;
     ret {| fmt_signals := signals;
            fmt_ecg_period := ecg_period;
            fmt_rpeaks := indices;
            fmt_rsp_signal := rsp_signal |})%py.
Proof.
  destruct ecg_signals; reflexivity.
Qed.

Lemma rpeaks_stage_source (ecg_signals : table_arg pyobject)
  (rpeaks : option pyobject) :
  rpeaks_stage (frame_of ecg_signals) (effective_rpeaks ecg_signals rpeaks)
  = match _signal_formatpeaks_sanitize (peaks_source ecg_signals rpeaks) with
    | Err (NameError m) =>
        match peaks_source ecg_signals rpeaks with
        | inl _ => raise (ValueError "NeuroKit error: _ecg_rsa_formatinput(): Wrong input, we couldn't extract rpeaks indices.")
        | inr _ => raise (NameError m)
        end
    | r => lift r
    end.
Proof.
  unfold beat_indices, peaks_source.
  destruct ecg_signals as [df | first others]; [destruct rpeaks as [g |] |];
    cbn [frame_of effective_rpeaks];
    destruct (_signal_formatpeaks_sanitize _) as [v | []]; reflexivity.
Qed.

Lemma formatinput_Ok_inv (ecg_signals : table_arg pyobject)
  (rsp_signals : option (table_arg pyobject)) (rpeaks : option pyobject)
  (sampling_rate : Z) (out : list string) (input : formatted) :
  formatinput ecg_signals rsp_signals rpeaks sampling_rate = (out, Ok input) ->
  exists (rsp : option DataFrame),
    _signal_formatpeaks_sanitize (peaks_source ecg_signals rpeaks)
      = Ok (fmt_rpeaks input) /\
    fmt_signals input
      = match rsp with
        | Some r => concat_columns (frame_of ecg_signals) r
        | None => frame_of ecg_signals
        end.
Proof.
  rewrite formatinput_stages. cbv zeta. intros H.
  apply bind_Ok_inv in H. destruct H as (o1 & period & o2 & _ & H & _).
  apply bind_Ok_inv in H. destruct H as (o3 & rsp & o4 & _ & H & _).
  apply bind_Ok_inv in H. destruct H as (o5 & indices & o6 & Hidx & H & _).
  apply bind_Ok_inv in H. destruct H as (o7 & signal & o8 & _ & H & _).
  inversion H; subst. cbn [fmt_rpeaks fmt_signals].
  exists rsp. split; [| reflexivity].
  rewrite rpeaks_stage_source in Hidx.
  destruct (_signal_formatpeaks_sanitize _) as [v | e].
  - now apply lift_Ok_inv in Hidx.
  - destruct e; try discriminate Hidx.
    destruct (peaks_source ecg_signals rpeaks); discriminate Hidx.
Qed.

Lemma entry_formatinput_Err (ecg_signals : table_arg pyobject)
  (rsp_signals : option (table_arg pyobject)) (rpeaks : option pyobject)
  (sampling_rate : Z) (continuous : bool) (out : list string) (e : exn) :
  formatinput ecg_signals rsp_signals rpeaks sampling_rate = (out, Err e) ->
  entry ecg_signals rsp_signals rpeaks sampling_rate continuous = (out, Err e).
Proof.
  intros H. unfold ecg_rsa. now apply bind_Err_left.
Qed.

Lemma concat_columns_nil_r (df : DataFrame) : concat_columns df [] = df.
Proof.
  unfold concat_columns, pad_frame. cbn [nrows].
  rewrite Nat.max_0_r, Nat.ltb_irrefl.
  destruct (0 <? nrows df)%nat; apply app_nil_r.
Qed.

(** C9: with the cardiac signals passed as a tuple the formatter works on
    the first element alone and forgets the beat indices the caller
    supplied: the call is the call on that element with [rpeaks] at [None],
    and when it returns, the beat indices are those the sanitizer extracts
    from the cardiac table and the table is its first block of columns. *)
Theorem formatinput_tuple_discards_rpeaks :
  forall (first : DataFrame) (others : list pyobject)
         (rsp_signals : option (table_arg pyobject)) (rpeaks : option pyobject)
         (sampling_rate : Z),
    formatinput (Tuple first others) rsp_signals rpeaks sampling_rate
    = formatinput (Frame first) rsp_signals None sampling_rate /\
    (forall (out : list string) (input : formatted),
        formatinput (Tuple first others) rsp_signals rpeaks sampling_rate
        = (out, Ok input) ->
        _signal_formatpeaks_sanitize (inl first) = Ok (fmt_rpeaks input) /\
        exists rsp : DataFrame, fmt_signals input = concat_columns first rsp).
Proof.
  intros first others rsp_signals rpeaks sampling_rate.
  split; [reflexivity |]. intros out input H.
  destruct (formatinput_Ok_inv _ _ _ _ _ _ H) as (rsp & Hidx & Hsig).
  split; [exact Hidx |]. cbn [frame_of] in Hsig.
  destruct rsp as [r |]; [now exists r |].
  exists []. now rewrite concat_columns_nil_r.
Qed.

(** C8: a cardiac table with neither a column whose name contains ECG_Rate
    nor one whose name contains ECG_R_Peaks makes the formatter, and the
    entry point with it, raise the [ValueError] of the formatter before
    anything is printed or returned; and when the sanitizer cannot locate
    the beat indices (it fails with an [InputError], as the specification
    has it) the formatter never returns, and raises that [InputError] as
    soon as the stages before it have returned; a [NameError] of the
    sanitizer on the cardiac table is turned into the [ValueError] of the
    formatter. *)
Theorem formatinput_input_errors :
  forall (ecg_signals : table_arg pyobject)
         (rsp_signals : option (table_arg pyobject)) (rpeaks : option pyobject)
         (sampling_rate : Z),
    (lacks_cardiac_columns (frame_of ecg_signals) ->
     exists e : exn,
       InputError e /\
       formatinput ecg_signals rsp_signals rpeaks sampling_rate = ([], Err e) /\
       forall continuous : bool,
         entry ecg_signals rsp_signals rpeaks sampling_rate continuous
         = ([], Err e)) /\
    (forall e : exn,
        _signal_formatpeaks_sanitize (peaks_source ecg_signals rpeaks) = Err e ->
        forall (out : list string) (input : formatted),
          formatinput ecg_signals rsp_signals rpeaks sampling_rate
          <> (out, Ok input)) /\
    (forall (e : exn) (o1 o2 : list string) (ecg_period : list float64)
            (rsp : option DataFrame),
        period_stage (frame_of ecg_signals)
          (effective_rpeaks ecg_signals rpeaks) sampling_rate
          = (o1, Ok ecg_period) ->
        rsp_stage (frame_of ecg_signals) rsp_signals ecg_period sampling_rate
          = (o2, Ok rsp) ->
        _signal_formatpeaks_sanitize (peaks_source ecg_signals rpeaks) = Err e ->
        (InputError e \/
         exists m, e = NameError m /\
                   peaks_source ecg_signals rpeaks = inl (frame_of ecg_signals)) ->
        exists e' : exn,
          InputError e' /\
          formatinput ecg_signals rsp_signals rpeaks sampling_rate
          = (o1 ++ o2, Err e') /\
          forall continuous : bool,
            entry ecg_signals rsp_signals rpeaks sampling_rate continuous
            = (o1 ++ o2, Err e')).
Proof.
  intros ecg_signals rsp_signals rpeaks sampling_rate.
  split; [| split].
  - intros Hlacks.
    assert (Hfmt :
      formatinput ecg_signals rsp_signals rpeaks sampling_rate
      = ([], Err (ValueError "NeuroKit error: _ecg_rsa_formatinput():Wrong input, we couldn't extractheart rate signal."))).
    { rewrite formatinput_stages. cbv zeta. unfold heart_period.
      rewrite !filter_none by (intros col Hcol; now apply Hlacks).
      reflexivity. }
    eexists. split; [| split; [exact Hfmt |]]; [exact I |].
    intros continuous. now apply entry_formatinput_Err.
  - intros e He out input H.
    destruct (formatinput_Ok_inv _ _ _ _ _ _ H) as (_ & Hidx & _).
    congruence.
  - intros e o1 o2 ecg_period rsp Hperiod Hrsp He Hkind.
    assert (Hidx :
      exists e', InputError e' /\
        rpeaks_stage (frame_of ecg_signals)
          (effective_rpeaks ecg_signals rpeaks) = ([], Err e')).
    { rewrite rpeaks_stage_source, He.
      destruct Hkind as [Hin | (m & -> & ->)].
      - exists e. split; [assumption |]. destruct e; try reflexivity.
        destruct Hin.
      - eexists. split; [| reflexivity]. exact I. }
    destruct Hidx as (e' & Hin & Hidx). exists e'.
    assert (Hfmt :
      formatinput ecg_signals rsp_signals rpeaks sampling_rate
      = (o1 ++ o2, Err e')).
    { rewrite formatinput_stages. cbv zeta.
      rewrite (bind_Ok_left _ _ _ _ Hperiod).
      rewrite (bind_Ok_left _ _ _ _ Hrsp).
      rewrite (bind_Err_left _ _ _ _ Hidx). cbn [fst snd].
      now rewrite app_nil_r. }
    split; [assumption |]. split; [exact Hfmt |].
    intros continuous. now apply entry_formatinput_Err.
Qed.

Lemma bind_lift_Ok {A B : Type} (a : A) (k : A -> M B) :
  bind (lift (Ok a)) k = k a.
Proof.
  unfold bind, lift. now destruct (k a).
Qed.

Lemma body_without_onset (signals : DataFrame) (ecg_period : list float64)
  (rpeaks : list Z) (sampling_rate : Z) (continuous : bool)
  (phase completion marks : column) :
  getitem signals "RSP_Phase" = Ok phase ->
  getitem signals "RSP_Phase_Completion" = Ok completion ->
  getitem signals "RSP_Peaks" = Ok marks ->
  no_inspiration_onset phase completion ->
  body signals ecg_period rpeaks sampling_rate continuous
  = ([], Err (IndexError "index 0 is out of bounds for axis 0 with size 0")).
Proof.
  intros Hphase Hcompletion Hmarks Hnone. unfold ecg_rsa_body.
  rewrite (_ecg_rsa_cycles_onsets _ _ _ Hphase Hcompletion), bind_lift_Ok.
  rewrite Hmarks, bind_lift_Ok. cbn [RSP_Inspiration_Onsets].
  rewrite (onset_rows_none _ _ Hnone). reflexivity.
Qed.

(** C10 (amended): when no row of the aligned table (with its two phase
    columns) has phase 1 and phase completion 0, the entry point ends with
    an exception that is not the [InputError] of the formatter and that
    nothing catches, whatever the mode: the [IndexError] of reading the
    first onset when the table has the column RSP_Peaks, and the
    [KeyError] of reading that column, one line earlier, when it has not. *)
Theorem ecg_rsa_without_inspiration_onset :
  forall (signals : DataFrame) (phase completion : column)
         (sampling_rate : Z) (continuous : bool),
    unique_labels signals ->
    getitem signals "RSP_Phase" = Ok phase ->
    getitem signals "RSP_Phase_Completion" = Ok completion ->
    no_inspiration_onset phase completion ->
    exists e : exn,
      e = match getitem signals "RSP_Peaks" with
          | Ok _ => IndexError "index 0 is out of bounds for axis 0 with size 0"
          | Err _ => KeyError "RSP_Peaks"
          end /\
      ~ InputError e /\
      (forall (ecg_period : list float64) (rpeaks : list Z),
          body signals ecg_period rpeaks sampling_rate continuous
          = ([], Err e)) /\
      (forall (ecg_signals : table_arg pyobject)
              (rsp_signals : option (table_arg pyobject))
              (rpeaks : option pyobject) (out : list string)
              (input : formatted),
          formatinput ecg_signals rsp_signals rpeaks sampling_rate
          = (out, Ok input) ->
          fmt_signals input = signals ->
          entry ecg_signals rsp_signals rpeaks sampling_rate continuous
          = (out, Err e)).
Proof.
  intros signals phase completion sampling_rate continuous
         _ Hphase Hcompletion Hnone.
  eexists. split; [reflexivity |].
  assert (Hbody : forall (ecg_period : list float64) (rpeaks : list Z),
    body signals ecg_period rpeaks sampling_rate continuous
    = ([], Err match getitem signals "RSP_Peaks" with
               | Ok _ =>
                   IndexError "index 0 is out of bounds for axis 0 with size 0"
               | Err _ => KeyError "RSP_Peaks"
               end)).
  { intros ecg_period rpeaks.
    destruct (getitem signals "RSP_Peaks") as [marks | e] eqn:Hmarks.
    - now apply (body_without_onset _ _ _ _ _ phase completion marks).
    - assert (He : e = KeyError "RSP_Peaks").
      { unfold getitem in Hmarks.
        destruct (find _ signals) as [[label c] |]; now inversion Hmarks. }
      subst e. unfold ecg_rsa_body.
      rewrite (_ecg_rsa_cycles_onsets _ _ _ Hphase Hcompletion), bind_lift_Ok.
      now rewrite Hmarks. }
  split; [destruct (getitem signals "RSP_Peaks"); intros [] |]. split.
  - exact Hbody.
  - intros ecg_signals rsp_signals rpeaks out input Hfmt Hsig.
    unfold ecg_rsa. rewrite (bind_Ok_left _ _ _ _ Hfmt), Hsig, Hbody.
    cbn [fst snd]. now rewrite app_nil_r.
Qed.

(** In the non-continuous mode the mapping returned is the four
    statistics of the peak-to-trough estimator followed by the
    Porges-Bohrer estimate. *)
Lemma body_dict (signals : DataFrame) (ecg_period : list float64)
  (rpeaks : list Z) (sampling_rate : Z) (out : list string)
  (result : rsa_output) :
  body signals ecg_period rpeaks sampling_rate false = (out, Ok result) ->
  exists (rsa_values : list float64) (v : float64),
    result = RSA_dict (dict_update (dict_update [] (p2t_summary rsa_values))
                                   [("RSA_PorgesBohrer", PyFloat v)]).
Proof.
  unfold ecg_rsa_body. intros H.
  apply bind_Ok_inv in H. destruct H as (o1 & cycles & o2 & _ & H & _).
  apply bind_Ok_inv in H. destruct H as (o3 & marks & o4 & _ & H & _).
  apply bind_Ok_inv in H. destruct H as (o5 & first_onset & o6 & _ & H & _).
  apply bind_Ok_inv in H. destruct H as (o7 & [] & o8 & _ & H & _).
  apply bind_Ok_inv in H. destruct H as (o9 & rsa_p2t & o10 & Hp2t & H & _).
  apply bind_Ok_inv in H. destruct H as (o11 & rsa_pb & o12 & Hpb & H & _).
  apply lift_Ok_inv in Hp2t. destruct Hp2t as [Hp2t _].
  apply lift_Ok_inv in Hpb. destruct Hpb as [Hpb _].
  unfold _ecg_rsa_p2t in Hp2t. cbn [negb] in Hp2t.
  inversion Hp2t; subst rsa_p2t.
  destruct (_ecg_rsa_pb_shape _ _ _ Hpb) as (v & ->).
  cbn [negb] in H. inversion H. eexists. eexists. reflexivity.
Qed.

(** C7: in the non-continuous mode RSA_P2T_Mean_log is the natural
    logarithm of the value stored under RSA_P2T_Mean: in the mapping of the
    peak-to-trough estimator, for every list of per-cycle values, and in
    the mapping the entry point returns. *)
Theorem p2t_mean_log_is_log_of_mean :
  (forall rsa_values : list float64,
      exists m : float64,
        dict_get "RSA_P2T_Mean" (p2t_summary rsa_values) = Some (PyFloat m) /\
        dict_get "RSA_P2T_Mean_log" (p2t_summary rsa_values)
          = Some (PyFloat (F64.log m))) /\
  (forall (ecg_signals : table_arg pyobject)
          (rsp_signals : option (table_arg pyobject))
          (rpeaks : option pyobject) (sampling_rate : Z)
          (out : list string) (result : rsa_output),
      entry ecg_signals rsp_signals rpeaks sampling_rate false
        = (out, Ok result) ->
      exists (rsa : dict) (m : float64),
        result = RSA_dict rsa /\
        dict_get "RSA_P2T_Mean" rsa = Some (PyFloat m) /\
        dict_get "RSA_P2T_Mean_log" rsa = Some (PyFloat (F64.log m))).
Proof.
  split.
  - intros rsa_values. exists (nanmean rsa_values).
    destruct (p2t_summary_keys rsa_values) as (Hmean & Hlog & _). auto.
  - intros ecg_signals rsp_signals rpeaks sampling_rate out result H.
    unfold ecg_rsa in H. apply bind_Ok_inv in H.
    destruct H as (o1 & input & o2 & _ & H & _).
    apply body_dict in H. destruct H as (rsa_values & v & ->).
    eexists. exists (nanmean rsa_values).
    split; [reflexivity |]. split; reflexivity.
Qed.

End PackageFacts.

(** ** The properties on the example package *)

Lemma example_formatinput_run :
  example_formatinput (Frame example_table) None None 100
  = ([], Ok {| fmt_signals := example_table;
               fmt_ecg_period := [F64.Fin 0; F64.Fin 0];
               fmt_rpeaks := [];
               fmt_rsp_signal := None |}).
Proof.
  reflexivity.
Qed.

Lemma example_table_no_onset_unique_labels :
  unique_labels example_table_no_onset.
Proof.
  repeat constructor; simpl; intuition discriminate.
Qed.

Lemma example_no_onset :
  no_inspiration_onset [F64.Fin 0; F64.Fin 0] [F64.Fin 0; F64.Fin (1 / 2)].
Proof.
  intros i p c Hp Hc.
  destruct i as [| [| i]]; simpl in Hp; inversion Hp; subst;
    [| | destruct i; discriminate];
    rewrite F64Facts.eqb_Fin_false by lra; reflexivity.
Qed.

Lemma example_run :
  example_ecg_rsa (Frame example_table) None None 100 false
  = ([], Ok (RSA_dict
               (dict_update
                  (dict_update [] (p2t_summary (rsa_values_of [0] [] 100)))
                  [("RSA_PorgesBohrer", PyFloat F64.NInf)]))).
Proof.
  unfold example_ecg_rsa, ecg_rsa.
  rewrite (bind_Ok_left _ _ _ _ example_formatinput_run).
  cbn [fmt_signals fmt_ecg_period fmt_rpeaks app].
  assert (Hbody :
    ecg_rsa_body example_interpolate example_resample example_filter
      example_table [F64.Fin 0; F64.Fin 0] [] 100 false
    = ([], Ok (RSA_dict
                 (dict_update
                    (dict_update [] (p2t_summary (rsa_values_of [0] [] 100)))
                    [("RSA_PorgesBohrer", PyFloat F64.NInf)])))).
  { unfold ecg_rsa_body.
    rewrite (_ecg_rsa_cycles_onsets example_table
               [F64.Fin 1; F64.Fin 1] [F64.Fin 0; F64.Fin (1 / 2)]
               eq_refl eq_refl).
    rewrite bind_lift_Ok. cbn [RSP_Inspiration_Onsets].
    assert (Honsets :
      onset_rows [F64.Fin 1; F64.Fin 1] [F64.Fin 0; F64.Fin (1 / 2)]
                 (F64.Fin 1) = [0]).
    { unfold onset_rows.
      cbn [map List.length seq filter nth_error F64.eqb andb].
      decide_reals; reflexivity. }
    rewrite Honsets.
    change (getitem example_table "RSP_Peaks")
      with (@Ok column [F64.Fin 0; F64.Fin 1]).
    rewrite bind_lift_Ok.
    assert (Hpeaks : np_where (eq_scalar [F64.Fin 0; F64.Fin 1] (F64.Fin 1)) = [1]).
    { unfold np_where, eq_scalar. cbn [map where_from F64.eqb].
      decide_reals; reflexivity. }
    rewrite Hpeaks.
    assert (Hpb :
      _ecg_rsa_pb example_resample example_filter [F64.Fin 0; F64.Fin 0] 100 false
      = Ok (Some [("RSA_PorgesBohrer", PyFloat F64.NInf)])).
    { rewrite (_ecg_rsa_pb_epochs example_resample example_filter _ _
                 [F64.Fin 0; F64.Fin 0] [F64.Fin 0; F64.Fin 0]
                 (repeat (F64.Fin (0 + - 0)) 2) (repeat (F64.Fin (0 + - 0)) 2)
                 eq_refl eq_refl eq_refl eq_refl).
      now rewrite pb_epochs_constant by lia. }
    rewrite Hpb. reflexivity. }
  rewrite Hbody. reflexivity.
Qed.

Lemma p2t_mean_log_is_log_of_mean_witness :
  exists (rsa : dict) (m : float64),
    RSA_dict
      (dict_update (dict_update [] (p2t_summary (rsa_values_of [0] [] 100)))
                   [("RSA_PorgesBohrer", PyFloat F64.NInf)])
    = RSA_dict rsa /\
    dict_get "RSA_P2T_Mean" rsa = Some (PyFloat m) /\
    dict_get "RSA_P2T_Mean_log" rsa = Some (PyFloat (F64.log m)).
Proof.
  exact (proj2 (p2t_mean_log_is_log_of_mean unit example_interpolate
                  example_resample example_filter example_rate example_ecg_rsp
                  example_rsp_process example_sanitize)
           (Frame example_table) None None 100 [] _ example_run).
Defined.

Lemma formatinput_tuple_discards_rpeaks_witness :
  exists (out : list string) (input : formatted),
    example_formatinput (Tuple example_table [tt]) None (Some tt) 100
      = (out, Ok input) /\
    example_sanitize (inl example_table) = Ok (fmt_rpeaks input).
Proof.
  eexists. eexists.
  assert (Hrun : example_formatinput (Tuple example_table [tt]) None (Some tt) 100
                 = ([], Ok {| fmt_signals := example_table;
                              fmt_ecg_period := [F64.Fin 0; F64.Fin 0];
                              fmt_rpeaks := [];
                              fmt_rsp_signal := None |}))
    by reflexivity.
  split; [exact Hrun |].
  exact (proj1 (proj2 (formatinput_tuple_discards_rpeaks unit example_rate
                         example_ecg_rsp example_rsp_process example_sanitize
                         example_table [tt] None (Some tt) 100)
                  _ _ Hrun)).
Defined.

Lemma formatinput_input_errors_witness :
  (exists e : exn,
      InputError e /\
      example_formatinput (Frame [("ECG_Clean", [F64.Fin 0])]) None None 100
        = ([], Err e) /\
      forall continuous : bool,
        example_ecg_rsa (Frame [("ECG_Clean", [F64.Fin 0])]) None None 100
                        continuous = ([], Err e)) /\
  (exists e : exn,
      InputError e /\
      _ecg_rsa_formatinput (list Z) example_rate example_ecg_rsp
        example_rsp_process sanitize_from_spec
        (Frame example_rate_only) (Some (Frame example_signals)) None 100
        = ([], Err e) /\
      forall continuous : bool,
        ecg_rsa (list Z) example_interpolate example_resample example_filter
          example_rate example_ecg_rsp example_rsp_process sanitize_from_spec
          (Frame example_rate_only) (Some (Frame example_signals)) None 100
          continuous = ([], Err e)).
Proof.
  split.
  - apply (proj1 (formatinput_input_errors unit example_interpolate
                    example_resample example_filter example_rate
                    example_ecg_rsp example_rsp_process example_sanitize
                    (Frame [("ECG_Clean", [F64.Fin 0])]) None None 100)).
    intros col [<- | []]. split; reflexivity.
  - apply (proj2 (proj2 (formatinput_input_errors (list Z) example_interpolate
                           example_resample example_filter example_rate
                           example_ecg_rsp example_rsp_process
                           sanitize_from_spec
                           (Frame example_rate_only)
                           (Some (Frame example_signals)) None 100))
             (ValueError "beat indices cannot be located") [] []
             [F64.Fin 0; F64.Fin 0] (Some example_signals)).
    + reflexivity.
    + reflexivity.
    + reflexivity.
    + left. exact I.
Defined.

(** C10, as stated for every aligned table without inspiration onset,
    fails: on a table with the two phase columns and without the column
    RSP_Peaks, which the formatter accepts, the column is read before the
    first onset and the entry point ends with [KeyError]. *)
Lemma no_onset_without_peaks_counterexample :
  ecg_rsa_body example_interpolate example_resample example_filter
    example_table_no_peaks [F64.Fin 0; F64.Fin 0] [] 100 false
  = ([], Err (KeyError "RSP_Peaks")) /\
  example_ecg_rsa (Frame example_table_no_peaks) None None 100 false
  = ([], Err (KeyError "RSP_Peaks")) /\
  example_ecg_rsa (Frame example_table_no_peaks) None None 100 true
  = ([], Err (KeyError "RSP_Peaks")) /\
  ~ no_onset_statement.
Proof.
  assert (Hbody : forall continuous : bool,
    ecg_rsa_body example_interpolate example_resample example_filter
      example_table_no_peaks [F64.Fin 0; F64.Fin 0] [] 100 continuous
    = ([], Err (KeyError "RSP_Peaks"))).
  { intros continuous. unfold ecg_rsa_body.
    rewrite (_ecg_rsa_cycles_onsets example_table_no_peaks
               [F64.Fin 0; F64.Fin 0] [F64.Fin 0; F64.Fin (1 / 2)]
               eq_refl eq_refl).
    rewrite bind_lift_Ok. reflexivity. }
  assert (Hformat :
    example_formatinput (Frame example_table_no_peaks) None None 100
    = ([], Ok {| fmt_signals := example_table_no_peaks;
                 fmt_ecg_period := [F64.Fin 0; F64.Fin 0];
                 fmt_rpeaks := [];
                 fmt_rsp_signal := None |})) by reflexivity.
  assert (Hentry : forall continuous : bool,
    example_ecg_rsa (Frame example_table_no_peaks) None None 100 continuous
    = ([], Err (KeyError "RSP_Peaks"))).
  { intros continuous. unfold example_ecg_rsa, ecg_rsa.
    rewrite (bind_Ok_left _ _ _ _ Hformat).
    cbn [fmt_signals fmt_ecg_period fmt_rpeaks app].
    now rewrite Hbody. }
  split; [apply Hbody |]. split; [apply Hentry |]. split; [apply Hentry |].
  intros claim.
  destruct (claim example_interpolate example_resample example_filter
              example_table_no_peaks
              [F64.Fin 0; F64.Fin 0] [F64.Fin 0; F64.Fin (1 / 2)]
              [F64.Fin 0; F64.Fin 0] [] 100 false)
    as (msg & Hmsg).
  - repeat constructor; simpl; intuition discriminate.
  - reflexivity.
  - reflexivity.
  - exact example_no_onset.
  - rewrite Hbody in Hmsg. discriminate Hmsg.
Qed.

Lemma ecg_rsa_without_inspiration_onset_witness :
  exists e : exn,
    e = IndexError "index 0 is out of bounds for axis 0 with size 0" /\
    example_ecg_rsa (Frame example_table_no_onset) None None 100 false
    = ([], Err e).
Proof.
  destruct (ecg_rsa_without_inspiration_onset unit example_interpolate
              example_resample example_filter example_rate example_ecg_rsp
              example_rsp_process example_sanitize
              example_table_no_onset
              [F64.Fin 0; F64.Fin 0] [F64.Fin 0; F64.Fin (1 / 2)]
              100 false
              example_table_no_onset_unique_labels
              eq_refl eq_refl example_no_onset)
    as (e & He & _ & _ & Hentry).
  exists e. split; [exact He |].
  apply (Hentry (Frame example_table_no_onset) None None []
           {| fmt_signals := example_table_no_onset;
              fmt_ecg_period := [F64.Fin 0; F64.Fin 0];
              fmt_rpeaks := [];
              fmt_rsp_signal := None |}); reflexivity.
Defined.

(* ================================================================= *)
(** * Further properties of the estimators *)

(** ** Peak-to-trough *)

Lemma non_missing_all_NaN (a : list float64) :
  (forall v, In v a -> v = F64.NaN) ->
  non_missing a = [] /\ count_missing a = List.length a.
Proof.
  induction a as [| x a IH]; intros H; [split; reflexivity |].
  rewrite (H x) by now left.
  destruct IH as [IH1 IH2]; [intros v Hv; apply H; now right |].
  simpl. now rewrite IH1, IH2.
Qed.

Lemma p2t_summary_unfold (rsa_values : list float64) :
  p2t_summary rsa_values
  = [("RSA_P2T_Mean", PyFloat (nanmean rsa_values));
     ("RSA_P2T_Mean_log", PyFloat (F64.log (nanmean rsa_values)));
     ("RSA_P2T_SD", PyFloat (nanstd rsa_values 1));
     ("RSA_P2T_NoRSA", PyInt (count_null rsa_values))].
Proof.
  reflexivity.
Qed.

Lemma mean_all_nil : mean_all [] = F64.NaN.
Proof.
  unfold mean_all, F64.sum, F64.of_nat. simpl.
  now rewrite F64Facts.Rsign_zero.
Qed.

(** X1: when no respiratory cycle holds three beats (in particular with
    fewer than two onsets, where there is no cycle at all) the estimator
    raises nothing: mean, logarithm of the mean and standard deviation are
    not-a-number, and RSA_P2T_NoRSA is the number of cycles. *)
Theorem p2t_no_cycle_with_three_beats :
  forall (rsp_onsets rpeaks : list Z) (sampling_rate : Z),
    (forall (i : nat) (cycle_init cycle_end : Z),
        nth_error rsp_onsets i = Some cycle_init ->
        nth_error rsp_onsets (S i) = Some cycle_end ->
        (List.length (beats_between cycle_init cycle_end rpeaks) < 3)%nat) ->
    p2t_summary (rsa_values_of rsp_onsets rpeaks sampling_rate)
    = p2t_summary_missing (List.length rsp_onsets - 1).
Proof.
  intros rsp_onsets rpeaks sampling_rate Hfew.
  assert (Hall : forall v,
             In v (rsa_values_of rsp_onsets rpeaks sampling_rate) ->
             v = F64.NaN).
  { intros v Hv. apply In_nth_error in Hv. destruct Hv as (i & Hi).
    assert (Hlt : (i < List.length rsp_onsets - 1)%nat).
    { rewrite <- (rsa_values_length rsp_onsets rpeaks sampling_rate).
      apply nth_error_Some. congruence. }
    destruct (nth_error rsp_onsets i) as [ci |] eqn:Eci;
      [| apply nth_error_None in Eci; lia].
    destruct (nth_error rsp_onsets (S i)) as [ce |] eqn:Ece;
      [| apply nth_error_None in Ece; lia].
    rewrite (rsa_values_nth _ _ _ _ _ _ Eci Ece) in Hi.
    rewrite cycle_rsa_few_beats in Hi by (eapply Hfew; eassumption).
    congruence. }
  destruct (non_missing_all_NaN _ Hall) as [Hnone Hcount].
  rewrite p2t_summary_unfold, nanmean_non_missing, nanstd_non_missing.
  rewrite count_null_missing, Hnone, Hcount, rsa_values_length.
  unfold sample_sd_all, sample_var_all. simpl List.length.
  rewrite mean_all_nil. reflexivity.
Qed.

Lemma p2t_no_cycle_with_three_beats_witness :
  p2t_summary (rsa_values_of [0; 10; 20] [3; 12; 15] 100)
  = p2t_summary_missing 2.
Proof.
  apply (p2t_no_cycle_with_three_beats [0; 10; 20] [3; 12; 15] 100).
  intros i cycle_init cycle_end Hi Hj.
  destruct i as [| [| i]]; simpl in Hi, Hj.
  - inversion Hi; inversion Hj; subst. simpl. lia.
  - inversion Hi; inversion Hj; subst. simpl. lia.
  - destruct i; discriminate.
Defined.

Lemma cycle_rsa_missing_or_nonneg (cycle : list Z) (sampling_rate : Z) :
  sampling_rate <> 0 ->
  missing_or_nonneg (cycle_rsa cycle sampling_rate).
Proof.
  intros Hsr. destruct (Nat.lt_ge_cases (List.length cycle) 3) as [Hfew | Hlen].
  - left. now apply cycle_rsa_few_beats.
  - right. destruct (cycle_rsa_range _ _ Hsr Hlen) as (hi & lo & _ & _ & Hv & Hpos).
    eauto.
Qed.

Lemma rsa_values_missing_or_nonneg (rsp_onsets rpeaks : list Z) (sampling_rate : Z) :
  sampling_rate <> 0 ->
  Forall missing_or_nonneg (rsa_values_of rsp_onsets rpeaks sampling_rate).
Proof.
  intros Hsr. unfold rsa_values_of. apply Forall_map, Forall_forall.
  intros cycle _. now apply cycle_rsa_missing_or_nonneg.
Qed.

Lemma non_missing_nonneg_reals (a : list float64) :
  Forall missing_or_nonneg a ->
  exists xs : list R,
    non_missing a = map F64.Fin xs /\ Forall (fun x => (0 <= x)%R) xs.
Proof.
  induction 1 as [| v a Hv _ IH].
  - exists []. split; [reflexivity | constructor].
  - destruct IH as (xs & Hxs & Hpos).
    destruct Hv as [-> | (r & -> & Hr)].
    + exists xs. auto.
    + exists (r :: xs). split; [simpl; now rewrite Hxs | now constructor].
Qed.

Lemma Rsum_nonneg (xs : list R) :
  Forall (fun x => (0 <= x)%R) xs -> (0 <= Rsum xs)%R.
Proof.
  induction 1 as [| x xs Hx _ IH]; simpl; lra.
Qed.

(** X2: with a sampling rate that is not zero every per-cycle estimate is
    missing or a real number that is not negative (never an infinity),
    RSA_P2T_Mean is the mean of the estimates that are numbers, not
    negative, and it is not-a-number exactly when every cycle is missing;
    RSA_P2T_SD is not-a-number or not negative. *)
Theorem p2t_statistics_not_negative :
  forall (rsp_onsets rpeaks : list Z) (sampling_rate : Z),
    sampling_rate <> 0 ->
    let rsa_values := rsa_values_of rsp_onsets rpeaks sampling_rate in
    Forall missing_or_nonneg rsa_values /\
    (exists mean : float64,
        dict_get "RSA_P2T_Mean" (p2t_summary rsa_values) = Some (PyFloat mean) /\
        missing_or_nonneg mean /\
        (mean = F64.NaN <-> non_missing rsa_values = [])) /\
    (exists sd : float64,
        dict_get "RSA_P2T_SD" (p2t_summary rsa_values) = Some (PyFloat sd) /\
        missing_or_nonneg sd).
Proof.
  intros rsp_onsets rpeaks sampling_rate Hsr rsa_values.
  pose proof (rsa_values_missing_or_nonneg rsp_onsets rpeaks sampling_rate Hsr)
    as Hall.
  fold rsa_values in Hall.
  destruct (non_missing_nonneg_reals _ Hall) as (xs & Hxs & Hpos).
  destruct (p2t_summary_keys rsa_values) as (Hmean & _ & Hsd & _).
  split; [exact Hall |]. split.
  - exists (nanmean rsa_values). split; [exact Hmean |].
    rewrite nanmean_non_missing, Hxs.
    destruct xs as [| x xs].
    + simpl map. rewrite mean_all_nil. split; [now left |]. split; auto.
    + rewrite mean_all_Fin by discriminate. split.
      * right. eexists. split; [reflexivity |].
        unfold Rmean. apply Rmult_le_pos; [now apply Rsum_nonneg |].
        apply Rlt_le, Rinv_0_lt_compat, lt_0_INR. simpl. lia.
      * split; discriminate.
  - exists (nanstd rsa_values 1). split; [exact Hsd |].
    rewrite nanstd_non_missing, Hxs.
    destruct (Nat.lt_ge_cases (List.length xs) 2) as [Hfew | Hlen].
    + left. unfold sample_sd_all, sample_var_all. rewrite length_map.
      destruct (Nat.leb_spec (List.length xs) 1); [reflexivity | lia].
    + right. rewrite sample_sd_all_Fin by assumption.
      eexists. split; [reflexivity |]. apply sqrt_pos.
Qed.

Lemma p2t_statistics_not_negative_witness :
  Forall missing_or_nonneg (rsa_values_of [0; 10; 20] [1; 4; 9; 12] 100).
Proof.
  apply (p2t_statistics_not_negative [0; 10; 20] [1; 4; 9; 12] 100).
  discriminate.
Defined.

Lemma beats_between_shift (k cycle_init cycle_end : Z) (rpeaks : list Z) :
  beats_between (k + cycle_init) (k + cycle_end) (map (Z.add k) rpeaks)
  = map (Z.add k) (beats_between cycle_init cycle_end rpeaks).
Proof.
  unfold beats_between. induction rpeaks as [| r rpeaks IH]; [reflexivity |].
  simpl. rewrite IH.
  replace ((k + r >=? k + cycle_init) && (k + r <? k + cycle_end))%bool
    with ((r >=? cycle_init) && (r <? cycle_end))%bool; [now destruct (_ && _)%bool |].
  f_equal.
  - rewrite !Z.geb_leb. destruct (Z.leb_spec cycle_init r), (Z.leb_spec (k + cycle_init) (k + r)); auto; lia.
  - destruct (Z.ltb_spec r cycle_end), (Z.ltb_spec (k + r) (k + cycle_end)); auto; lia.
Qed.

Lemma np_diff_shift (k : Z) (l : list Z) :
  np_diff (map (Z.add k) l) = np_diff l.
Proof.
  induction l as [| a [| b l] IH]; try reflexivity.
  change (np_diff (map (Z.add k) (a :: b :: l)))
    with ((k + b - (k + a)) :: np_diff (map (Z.add k) (b :: l))).
  rewrite IH. change (np_diff (a :: b :: l)) with ((b - a) :: np_diff (b :: l)).
  f_equal. lia.
Qed.

Lemma cycles_rri_shift (k : Z) (rsp_onsets rpeaks : list Z) :
  cycles_rri (map (Z.add k) rsp_onsets) (map (Z.add k) rpeaks)
  = map (map (Z.add k)) (cycles_rri rsp_onsets rpeaks).
Proof.
  induction rsp_onsets as [| a [| b rest] IH]; try reflexivity.
  change (cycles_rri (map (Z.add k) (a :: b :: rest)) (map (Z.add k) rpeaks))
    with (beats_between (k + a) (k + b) (map (Z.add k) rpeaks)
          :: cycles_rri (map (Z.add k) (b :: rest)) (map (Z.add k) rpeaks)).
  rewrite IH, beats_between_shift. reflexivity.
Qed.

(** X3: the estimates do not depend on the origin of the sample indices:
    moving every onset and every beat by the same number of samples leaves
    each per-cycle estimate, and with them the whole mapping, unchanged. *)
Theorem p2t_shift_invariant :
  forall (k : Z) (rsp_onsets rpeaks : list Z) (sampling_rate : Z),
    rsa_values_of (map (Z.add k) rsp_onsets) (map (Z.add k) rpeaks) sampling_rate
    = rsa_values_of rsp_onsets rpeaks sampling_rate /\
    p2t_summary (rsa_values_of (map (Z.add k) rsp_onsets)
                               (map (Z.add k) rpeaks) sampling_rate)
    = p2t_summary (rsa_values_of rsp_onsets rpeaks sampling_rate).
Proof.
  intros k rsp_onsets rpeaks sampling_rate.
  assert (Heq :
    rsa_values_of (map (Z.add k) rsp_onsets) (map (Z.add k) rpeaks) sampling_rate
    = rsa_values_of rsp_onsets rpeaks sampling_rate).
  { unfold rsa_values_of. rewrite cycles_rri_shift, map_map.
    apply map_ext. intros cycle. unfold cycle_rsa, RRis_of.
    now rewrite np_diff_shift. }
  split; [exact Heq | now rewrite Heq].
Qed.

Lemma beats_between_In (cycle_init cycle_end : Z) (rpeaks : list Z) (b : Z) :
  In b (beats_between cycle_init cycle_end rpeaks)
  <-> In b rpeaks /\ cycle_init <= b < cycle_end.
Proof.
  unfold beats_between. rewrite filter_In, andb_true_iff, Z.geb_le, Z.ltb_lt.
  tauto.
Qed.

Lemma cycles_rri_nth_inv (rsp_onsets rpeaks : list Z) (i : nat) (cycle : list Z) :
  nth_error (cycles_rri rsp_onsets rpeaks) i = Some cycle ->
  exists cycle_init cycle_end : Z,
    nth_error rsp_onsets i = Some cycle_init /\
    nth_error rsp_onsets (S i) = Some cycle_end /\
    cycle = beats_between cycle_init cycle_end rpeaks.
Proof.
  intros Hi.
  assert (Hlt : (i < List.length rsp_onsets - 1)%nat).
  { rewrite <- (cycles_rri_length rsp_onsets rpeaks).
    apply nth_error_Some. congruence. }
  destruct (nth_error rsp_onsets i) as [ci |] eqn:Eci;
    [| apply nth_error_None in Eci; lia].
  destruct (nth_error rsp_onsets (S i)) as [ce |] eqn:Ece;
    [| apply nth_error_None in Ece; lia].
  exists ci, ce. rewrite (cycles_rri_nth _ _ _ _ _ Eci Ece) in Hi.
  repeat split; congruence.
Qed.

Lemma sorted_lt_nth (l : list Z) :
  StronglySorted Z.lt l ->
  forall (i j : nat) (a b : Z),
    (i < j)%nat -> nth_error l i = Some a -> nth_error l j = Some b -> a < b.
Proof.
  induction 1 as [| x l Hl IH Hx]; intros i j a b Hij Hi Hj.
  - destruct i; discriminate.
  - destruct j as [| j]; [lia |]. simpl in Hj. destruct i as [| i].
    + simpl in Hi. inversion Hi; subst x.
      rewrite Forall_forall in Hx. apply Hx. eapply nth_error_In; eassumption.
    + simpl in Hi. apply (IH i j); [lia | assumption | assumption].
Qed.

Lemma sorted_lt_head_le_last (x : Z) (l : list Z) :
  StronglySorted Z.lt (x :: l) -> x <= last (x :: l) 0.
Proof.
  revert x. induction l as [| y l IH]; intros x H; [simpl; lia |].
  apply StronglySorted_inv in H. destruct H as [Hl Hx].
  change (last (x :: y :: l) 0) with (last (y :: l) 0).
  specialize (IH y Hl). inversion Hx; subst. lia.
Qed.

Lemma cycles_rri_cover (rsp_onsets rpeaks : list Z) (b : Z) :
  StronglySorted Z.lt rsp_onsets ->
  (exists cycle, In cycle (cycles_rri rsp_onsets rpeaks) /\ In b cycle)
  <-> In b rpeaks /\ hd 0 rsp_onsets <= b < last rsp_onsets 0.
Proof.
  induction 1 as [| a onsets Honsets IH Ha].
  - simpl. split; [intros (c & [] & _) | lia].
  - destruct onsets as [| a' rest].
    + simpl. split; [intros (c & [] & _) | lia].
    + change (cycles_rri (a :: a' :: rest) rpeaks)
        with (beats_between a a' rpeaks :: cycles_rri (a' :: rest) rpeaks).
      change (last (a :: a' :: rest) 0) with (last (a' :: rest) 0).
      pose proof (sorted_lt_head_le_last a' rest Honsets) as Hlast.
      assert (Haa : a < a') by (inversion Ha; assumption).
      simpl hd in *. split.
      * intros (c & [<- | Hc] & Hb).
        -- apply beats_between_In in Hb. split; [tauto | lia].
        -- destruct (proj1 IH (ex_intro _ c (conj Hc Hb))) as [Hin Hrange].
           split; [assumption | lia].
      * intros [Hin Hrange]. destruct (Z.lt_ge_cases b a') as [Hlt | Hge].
        -- exists (beats_between a a' rpeaks). split; [now left |].
           apply beats_between_In. split; [assumption | lia].
        -- destruct (proj2 IH (conj Hin (conj Hge (proj2 Hrange))))
             as (c & Hc & Hb).
           exists c. split; [now right | assumption].
Qed.

(** X4: with strictly increasing onsets (what the cycle extractor returns)
    the cycles cut the beats without overlap: a beat lies in a cycle
    exactly when it lies between the first onset (included) and the last
    onset (excluded), and then in one cycle only; beats before the first
    onset or from the last onset on take no part in any estimate. *)
Theorem p2t_cycles_partition_beats :
  forall (rsp_onsets rpeaks : list Z),
    StronglySorted Z.lt rsp_onsets ->
    forall b : Z,
      ((exists cycle, In cycle (cycles_rri rsp_onsets rpeaks) /\ In b cycle)
       <-> In b rpeaks /\ hd 0 rsp_onsets <= b < last rsp_onsets 0) /\
      (forall (i j : nat) (ci cj : list Z),
          nth_error (cycles_rri rsp_onsets rpeaks) i = Some ci ->
          nth_error (cycles_rri rsp_onsets rpeaks) j = Some cj ->
          In b ci -> In b cj -> i = j).
Proof.
  intros rsp_onsets rpeaks Hsorted b.
  split; [now apply cycles_rri_cover |].
  assert (Hno : forall i j ci cj,
             (i < j)%nat ->
             nth_error (cycles_rri rsp_onsets rpeaks) i = Some ci ->
             nth_error (cycles_rri rsp_onsets rpeaks) j = Some cj ->
             In b ci -> In b cj -> False).
  { intros i j ci cj Hij Hi Hj Hbi Hbj.
    apply cycles_rri_nth_inv in Hi. destruct Hi as (a1 & e1 & _ & He1 & ->).
    apply cycles_rri_nth_inv in Hj. destruct Hj as (a2 & e2 & Ha2 & _ & ->).
    apply beats_between_In in Hbi. apply beats_between_In in Hbj.
    assert (e1 <= a2).
    { destruct (Nat.eq_dec (S i) j) as [<- | Hne].
      - rewrite He1 in Ha2. inversion Ha2. lia.
      - apply Z.lt_le_incl.
        apply (sorted_lt_nth _ Hsorted (S i) j); [lia | assumption | assumption]. }
    lia. }
  intros i j ci cj Hi Hj Hbi Hbj.
  destruct (Nat.lt_trichotomy i j) as [Hlt | [Heq | Hgt]]; [| assumption |].
  - exfalso. eapply Hno; eassumption.
  - exfalso. eapply (Hno j i); eassumption.
Qed.

Lemma p2t_cycles_partition_beats_witness :
  (exists cycle, In cycle (cycles_rri [0; 10; 20] [3; 12; 25]) /\ In 12 cycle)
  <-> In 12 [3; 12; 25] /\ hd 0 [0; 10; 20] <= 12 < last [0; 10; 20] 0.
Proof.
  apply (p2t_cycles_partition_beats [0; 10; 20] [3; 12; 25]).
  repeat constructor.
Defined.




Lemma mask_index_empty {A : Type} (a : list A) : mask_index a [] = Ok [].
Proof.
  unfold mask_index. cbn [List.length Nat.eqb orb]. now rewrite combine_nil.
Qed.






(** ** Respiratory cycles *)

Lemma eqb_Fin_inv (x : float64) (r : R) :
  F64.eqb x (F64.Fin r) = true -> x = F64.Fin r.
Proof.
  destruct x as [| | | a]; try discriminate. simpl.
  destruct (Req_dec_T a r); [now subst | discriminate].
Qed.

Lemma np_diff_positive (l : list Z) :
  StronglySorted Z.lt l -> Forall (fun d => 1 <= d) (np_diff l).
Proof.
  induction 1 as [| a l Hl IH Ha]; [constructor |].
  destruct l as [| b rest]; [constructor |].
  change (np_diff (a :: b :: rest)) with ((b - a) :: np_diff (b :: rest)).
  constructor; [| assumption]. inversion Ha; subst. lia.
Qed.

Lemma np_diff_telescope (l : list Z) :
  Zsum (np_diff l) = last l 0 - hd 0 l.
Proof.
  induction l as [| a [| b rest] IH]; [reflexivity | simpl; lia |].
  change (np_diff (a :: b :: rest)) with ((b - a) :: np_diff (b :: rest)).
  change (last (a :: b :: rest) 0) with (last (b :: rest) 0).
  change (Zsum ((b - a) :: np_diff (b :: rest)))
    with ((b - a) + Zsum (np_diff (b :: rest))).
  rewrite IH. simpl hd. lia.
Qed.

(** X6: the onsets the cycle extractor returns are row positions of the
    table, no row is both an inspiration and an expiration onset, every
    cycle length is at least one sample, and the cycle lengths add up to
    the distance from the first inspiration onset to the last. *)
Theorem cycles_invariants :
  forall (signals : DataFrame) (phase completion : column),
    unique_labels signals ->
    getitem signals "RSP_Phase" = Ok phase ->
    getitem signals "RSP_Phase_Completion" = Ok completion ->
    exists cycles : rsp_cycles,
      _ecg_rsa_cycles signals = Ok cycles /\
      (forall z : Z,
          In z (RSP_Inspiration_Onsets cycles) \/
          In z (RSP_Expiration_Onsets cycles) ->
          0 <= z < Z.of_nat (List.length phase) /\
          z < Z.of_nat (List.length completion)) /\
      (forall z : Z,
          In z (RSP_Inspiration_Onsets cycles) ->
          ~ In z (RSP_Expiration_Onsets cycles)) /\
      Forall (fun d => 1 <= d) (RSP_Cycles_Length cycles) /\
      Zsum (RSP_Cycles_Length cycles)
      = last (RSP_Inspiration_Onsets cycles) 0
        - hd 0 (RSP_Inspiration_Onsets cycles).
Proof.
  intros signals phase completion _ Hphase Hcompletion.
  eexists. split; [exact (_ecg_rsa_cycles_onsets _ _ _ Hphase Hcompletion) |].
  cbn [RSP_Inspiration_Onsets RSP_Expiration_Onsets RSP_Cycles_Length].
  assert (Hrow : forall label z,
             In z (onset_rows phase completion label) ->
             0 <= z < Z.of_nat (List.length phase) /\
             z < Z.of_nat (List.length completion)).
  { intros label z Hz. apply onset_rows_In in Hz.
    destruct Hz as (i & p & c & -> & Hp & Hc & _).
    assert (i < List.length phase)%nat by (apply nth_error_Some; congruence).
    assert (i < List.length completion)%nat
      by (apply nth_error_Some; congruence).
    lia. }
  split; [| split; [| split]].
  - intros z [Hz | Hz]; eapply Hrow; eassumption.
  - intros z Hin Hex.
    apply onset_rows_In in Hin. destruct Hin as (i & p & c & -> & Hp & _ & Hp1 & _).
    apply onset_rows_In in Hex. destruct Hex as (j & p' & c' & Hj & Hp' & _ & Hp0 & _).
    apply Nat2Z.inj in Hj. subst j. rewrite Hp in Hp'. inversion Hp'; subst p'.
    apply eqb_Fin_inv in Hp1. apply eqb_Fin_inv in Hp0.
    rewrite Hp1 in Hp0. inversion Hp0. lra.
  - apply np_diff_positive, filter_seq_sorted.
  - apply np_diff_telescope.
Qed.

Lemma cycles_invariants_witness :
  exists cycles : rsp_cycles,
    _ecg_rsa_cycles example_signals = Ok cycles /\
    Forall (fun d => 1 <= d) (RSP_Cycles_Length cycles) /\
    Zsum (RSP_Cycles_Length cycles)
    = last (RSP_Inspiration_Onsets cycles) 0
      - hd 0 (RSP_Inspiration_Onsets cycles).
Proof.
  destruct (cycles_invariants example_signals example_phase example_completion
              example_signals_unique_labels eq_refl eq_refl)
    as (cycles & Hrun & _ & _ & Hpos & Hsum).
  exists cycles. auto.
Defined.

(** ** Porges-Bohrer *)


(** X7: a residual too short for a variance makes the epoch loop raise
    [ValueError], whatever its sample is: without any sample the maximum
    of the empty epoch index has no value, and with a single sample the
    only epoch has no variance, is dropped, and nothing is left to
    concatenate. *)
Theorem pb_short_residual :
  forall zero_mean_filtered : list float64,
    (List.length zero_mean_filtered <= 1)%nat ->
    pb_epochs zero_mean_filtered
    = Err (ValueError
             match zero_mean_filtered with
             | [] => "zero-size array to reduction operation maximum which has no identity"
             | _ :: _ => "No objects to concatenate"
             end).
Proof.
  intros signal Hshort.
  destruct signal as [| x [| y rest]];
    [reflexivity | | simpl in Hshort; lia].
  rewrite pb_epochs_blocks by discriminate. unfold pb_estimate_over.
  change (epoch_blocks [x]) with [[x]]. cbn [map].
  now rewrite (epoch_log_variance_short [x]) by (simpl; lia).
Qed.

Lemma pb_short_residual_witness :
  pb_epochs [F64.Fin 5] = Err (ValueError "No objects to concatenate").
Proof.
  apply (pb_short_residual [F64.Fin 5]). simpl. lia.
Defined.

Lemma epoch_count_multiple (m : nat) : epoch_count (60 * m) = m.
Proof.
  unfold epoch_count.
  replace (60 * m + 59)%nat with (59 + m * 60)%nat by lia.
  rewrite Nat.div_add by lia. reflexivity.
Qed.

Lemma epoch_count_multiple_succ (m : nat) : epoch_count (60 * m + 1) = S m.
Proof.
  unfold epoch_count.
  replace (60 * m + 1 + 59)%nat with (0 + (S m) * 60)%nat by lia.
  rewrite Nat.div_add by lia. reflexivity.
Qed.

Lemma epoch_block_full_app (signal tail : list float64) (i : nat) :
  (60 * i + 60 <= List.length signal)%nat ->
  epoch_block i (signal ++ tail) = epoch_block i signal.
Proof.
  intros Hfull. unfold epoch_block.
  rewrite skipn_app, firstn_app, length_skipn.
  replace (60 - (List.length signal - 60 * i))%nat with 0%nat by lia.
  rewrite firstn_O. apply app_nil_r.
Qed.

Lemma epoch_block_after (signal : list float64) (x : float64) (m : nat) :
  List.length signal = (60 * m)%nat ->
  epoch_block m (signal ++ [x]) = [x].
Proof.
  intros Hlen. unfold epoch_block.
  rewrite skipn_app, skipn_all2 by lia.
  replace (60 * m - List.length signal)%nat with 0%nat by lia.
  reflexivity.
Qed.

Lemma epoch_blocks_trailing (signal : list float64) (x : float64) (m : nat) :
  List.length signal = (60 * m)%nat ->
  epoch_blocks (signal ++ [x]) = epoch_blocks signal ++ [[x]].
Proof.
  intros Hlen. unfold epoch_blocks.
  rewrite length_app, Hlen. cbn [List.length].
  rewrite epoch_count_multiple_succ, epoch_count_multiple.
  rewrite seq_S, map_app. cbn [map Nat.add].
  rewrite (epoch_block_after _ _ _ Hlen). f_equal.
  apply map_ext_in. intros i Hi. apply in_seq in Hi.
  apply epoch_block_full_app. lia.
Qed.

(** X8: a single sample after the last full epoch changes nothing.  When
    the residual holds a whole number of epochs (a positive multiple of 60
    samples), one more sample opens an epoch that has no variance and is
    dropped: the result is the one of the residual without it. *)
Theorem pb_trailing_sample_ignored :
  forall (signal : list float64) (x : float64) (m : nat),
    (1 <= m)%nat ->
    List.length signal = (60 * m)%nat ->
    pb_epochs (signal ++ [x]) = pb_epochs signal.
Proof.
  intros signal x m Hm Hlen.
  assert (Hne : signal <> []) by (intros ->; simpl in Hlen; lia).
  rewrite !pb_epochs_blocks
    by (try assumption; destruct signal; discriminate).
  unfold pb_estimate_over.
  rewrite (epoch_blocks_trailing _ _ _ Hlen), map_app.
  unfold non_missing at 1. rewrite filter_app. cbn [map filter].
  rewrite (epoch_log_variance_short [x]) by (simpl; lia).
  cbn [F64.isnan negb]. rewrite app_nil_r. reflexivity.
Qed.

Lemma pb_trailing_sample_ignored_witness :
  pb_epochs (repeat (F64.Fin 0) 60 ++ [F64.Fin 1])
  = pb_epochs (repeat (F64.Fin 0) 60).
Proof.
  apply (pb_trailing_sample_ignored (repeat (F64.Fin 0) 60) (F64.Fin 1) 1).
  - lia.
  - reflexivity.
Defined.





(** ** The entry point after the formatter *)

Lemma bind_ret {A B : Type} (a : A) (k : A -> M B) : bind (ret a) k = k a.
Proof.
  exact (bind_lift_Ok a k).
Qed.

Lemma bind_print {B : Type} (line : string) (k : unit -> M B) :
  bind (print line) k = (line :: fst (k tt), snd (k tt)).
Proof.
  unfold bind, print. now destruct (k tt).
Qed.


Lemma has_column_getitem (df : DataFrame) (key : string) :
  if has_column df key
  then exists c : column, getitem df key = Ok c
  else getitem df key = Err (KeyError key).
Proof.
  unfold has_column, getitem, columns.
  induction df as [| [label c] df IH]; [reflexivity |].
  cbn [map existsb find fst]. rewrite (String.eqb_sym key label).
  destruct (String.eqb label key); [now exists c | exact IH].
Qed.



Section EntryPointFacts.

Variable signal_interpolate :
  list Z -> list float64 -> nat -> result (list float64).
Variable signal_resample : list float64 -> Z -> Z -> result (list float64).
Variable signal_filter :
  list float64 -> Z -> option Q -> option Q ->
  option string -> option Z -> option Z -> result (list float64).

Local Abbreviation body :=
  (ecg_rsa_body signal_interpolate signal_resample signal_filter).





(** The columns the entry point reads after the formatter. *)
Lemma body_missing_column_run (signals : DataFrame)
  (ecg_period : list float64) (rpeaks : list Z) (sampling_rate : Z)
  (continuous : bool) (key : string) :
  find (fun label => negb (has_column signals label)) required_columns
  = Some key ->
  body signals ecg_period rpeaks sampling_rate continuous
  = ([], Err (KeyError key)).
Proof.
  unfold required_columns, ecg_rsa_body, _ecg_rsa_cycles. cbn [find].
  pose proof (has_column_getitem signals "RSP_Phase") as H1.
  pose proof (has_column_getitem signals "RSP_Phase_Completion") as H2.
  pose proof (has_column_getitem signals "RSP_Peaks") as H3.
  destruct (has_column signals "RSP_Phase"); cbn [negb];
    [| intros [= <-]; now rewrite H1].
  destruct H1 as (phase & ->). cbn [rbind].
  destruct (has_column signals "RSP_Phase_Completion"); cbn [negb];
    [| intros [= <-]; now rewrite H2].
  destruct H2 as (completion & ->). cbn [rbind]. rewrite bind_lift_Ok.
  destruct (has_column signals "RSP_Peaks"); cbn [negb];
    [discriminate | intros [= <-]; now rewrite H3].
Qed.

End EntryPointFacts.


Section EntryPointRuns.

Variable pyobject : Type.
Variable signal_interpolate :
  list Z -> list float64 -> nat -> result (list float64).
Variable signal_resample : list float64 -> Z -> Z -> result (list float64).
Variable signal_filter :
  list float64 -> Z -> option Q -> option Q ->
  option string -> option Z -> option Z -> result (list float64).
Variable signal_rate : option pyobject -> Z -> nat -> result (list float64).
Variable ecg_rsp : list float64 -> Z -> result (list float64).
Variable rsp_process : list float64 -> Z -> result DataFrame.
Variable _signal_formatpeaks_sanitize : DataFrame + pyobject -> result (list Z).

Local Abbreviation formatinput :=
  (_ecg_rsa_formatinput pyobject signal_rate ecg_rsp rsp_process
     _signal_formatpeaks_sanitize).

Local Abbreviation entry :=
  (ecg_rsa pyobject signal_interpolate signal_resample signal_filter
     signal_rate ecg_rsp rsp_process _signal_formatpeaks_sanitize).

Local Abbreviation body :=
  (ecg_rsa_body signal_interpolate signal_resample signal_filter).

(** The entry point is the formatter, then the rest on what it returns. *)
Lemma entry_after_format (ecg_signals : table_arg pyobject)
  (rsp_signals : option (table_arg pyobject)) (rpeaks : option pyobject)
  (sampling_rate : Z) (continuous : bool) (out : list string)
  (input : formatted) (log : list string) (outcome : result rsa_output) :
  formatinput ecg_signals rsp_signals rpeaks sampling_rate = (out, Ok input) ->
  body (fmt_signals input) (fmt_ecg_period input) (fmt_rpeaks input)
       sampling_rate continuous = (log, outcome) ->
  entry ecg_signals rsp_signals rpeaks sampling_rate continuous
  = (out ++ log, outcome).
Proof.
  intros Hformat Hbody. unfold ecg_rsa.
  now rewrite (bind_Ok_left _ _ _ _ Hformat), Hbody.
Qed.



(** X13: after the formatter the entry point reads the columns RSP_Phase,
    RSP_Phase_Completion and RSP_Peaks of the table in this order; the
    first of them that the table lacks ends the call with the [KeyError]
    of that label, with nothing printed beyond the lines of the formatter
    and before the onsets are looked at, in both modes. *)
Theorem ecg_rsa_missing_column :
  forall (ecg_signals : table_arg pyobject)
         (rsp_signals : option (table_arg pyobject)) (rpeaks : option pyobject)
         (sampling_rate : Z) (continuous : bool) (out : list string)
         (input : formatted) (key : string),
    formatinput ecg_signals rsp_signals rpeaks sampling_rate
      = (out, Ok input) ->
    find (fun label => negb (has_column (fmt_signals input) label))
         required_columns = Some key ->
    entry ecg_signals rsp_signals rpeaks sampling_rate continuous
    = (out, Err (KeyError key)).
Proof.
  intros ecg_signals rsp_signals rpeaks sampling_rate continuous out input
         key Hformat Hkey.
  rewrite (entry_after_format _ _ _ _ _ _ _ _ _ Hformat
             (body_missing_column_run signal_interpolate signal_resample
                signal_filter _ _ _ _ _ _ Hkey)).
  now rewrite app_nil_r.
Qed.

End EntryPointRuns.




Lemma ecg_rsa_missing_column_witness :
  exists out : list string,
    List.length out = 2%nat /\
    example_ecg_rsa (Frame example_rate_only) None None 100 false
    = (out, Err (KeyError "RSP_Phase")).
Proof.
  refine (ex_intro _ _ (conj _
            (ecg_rsa_missing_column unit example_interpolate
               example_resample example_filter example_rate example_ecg_rsp
               example_rsp_process example_sanitize
               (Frame example_rate_only) None None 100 false _ _ "RSP_Phase"
               eq_refl eq_refl))).
  reflexivity.
Defined.

(** ** The stages of the formatter *)






Section FormatterFacts.

Variable pyobject : Type.
Variable signal_rate : option pyobject -> Z -> nat -> result (list float64).
Variable ecg_rsp : list float64 -> Z -> result (list float64).
Variable rsp_process : list float64 -> Z -> result DataFrame.
Variable _signal_formatpeaks_sanitize : DataFrame + pyobject -> result (list Z).

Local Abbreviation formatinput :=
  (_ecg_rsa_formatinput pyobject signal_rate ecg_rsp rsp_process
     _signal_formatpeaks_sanitize).

Local Abbreviation period_stage := (heart_period pyobject signal_rate).

Local Abbreviation rsp_stage := (respiration_table pyobject ecg_rsp rsp_process).

(** X14: the respiration the caller supplies (or the cardiac table when
    none is supplied) is kept exactly when it has two columns whose label
    contains RSP_Phase, and then nothing is printed and nothing is derived.
    Otherwise the table is the one derived from the heart period by
    [ecg_rsp] and [rsp_process], which replaces the supplied one, and one
    or two warnings are printed; when the derivation fails its exception
    is raised and nothing has been printed. *)
Theorem respiration_table_outcome :
  forall (ecg_signals : DataFrame) (rsp_signals : option (table_arg pyobject))
         (ecg_period : list float64) (sampling_rate : Z),
    let kept :=
      (count_rsp_phase (respiration_source ecg_signals rsp_signals) =? 2)%nat in
    match rsp_stage ecg_signals rsp_signals ecg_period sampling_rate with
    | (out, Ok table) =>
        if kept
        then out = [] /\ table = option_map frame_of rsp_signals
        else
          out <> [] /\ (List.length out <= 2)%nat /\
          exists (edr : list float64) (derived : DataFrame),
            ecg_rsp ecg_period sampling_rate = Ok edr /\
            rsp_process edr sampling_rate = Ok derived /\
            table = Some derived
    | (out, Err e) =>
        out = [] /\ kept = false /\
        rbind (ecg_rsp ecg_period sampling_rate)
              (fun edr => rsp_process edr sampling_rate) = Err e
    end.
Proof.
  intros ecg_signals rsp_signals ecg_period sampling_rate. cbv zeta.
  unfold respiration_table, respiration_source.
  destruct rsp_signals as [[df | first others] |]; cbn [frame_of option_map].
  1, 2: rewrite bind_ret.
  1: destruct (count_rsp_phase df =? 2)%nat; cbn [negb];
       [cbn [ret]; split; reflexivity |].
  2: destruct (count_rsp_phase first =? 2)%nat; cbn [negb];
       [cbn [ret]; split; reflexivity |].
  3: destruct (count_rsp_phase ecg_signals =? 2)%nat; cbn [negb];
       [rewrite bind_ret; cbn [ret]; split; reflexivity |].
  all: unfold derive_rsp.
  all: destruct (ecg_rsp ecg_period sampling_rate) as [edr | e];
       [| cbn [bind lift rbind]; auto].
  all: rewrite bind_lift_Ok.
  all: destruct (rsp_process edr sampling_rate) as [derived | e] eqn:Hderived;
       [| cbn [bind lift rbind]; auto].
  all: cbn [bind print ret lift fst snd app].
  1, 2: split; [discriminate | split; [cbn [List.length]; lia |]];
        exists edr, derived; auto.
  destruct (count_rsp_phase derived =? 2)%nat; cbn [negb].
  - cbn [ret]. split; [discriminate | split; [cbn [List.length]; lia |]].
    exists edr, derived. auto.
  - rewrite Hderived. cbn [bind print ret lift fst snd app].
    split; [discriminate | split; [cbn [List.length]; lia |]].
    exists edr, derived. auto.
Qed.

(** X15: when the formatter returns, the heart period is the column of
    the first label that contains ECG_Rate when the cardiac table has one,
    whatever [rpeaks] and [signal_rate] are; without such a label it is
    what [signal_rate] returns for the beat indices the formatter keeps
    (none with a tuple) at the number of rows of the cardiac table. *)
Theorem formatinput_heart_period :
  forall (ecg_signals : table_arg pyobject)
         (rsp_signals : option (table_arg pyobject)) (rpeaks : option pyobject)
         (sampling_rate : Z) (out : list string) (input : formatted),
    formatinput ecg_signals rsp_signals rpeaks sampling_rate = (out, Ok input) ->
    match filter (fun col => str_in "ECG_Rate" col)
                 (columns (frame_of ecg_signals)) with
    | col :: _ => getitem (frame_of ecg_signals) col = Ok (fmt_ecg_period input)
    | [] =>
        signal_rate (effective_rpeaks ecg_signals rpeaks) sampling_rate
                    (nrows (frame_of ecg_signals))
        = Ok (fmt_ecg_period input)
    end.
Proof.
  intros ecg_signals rsp_signals rpeaks sampling_rate out input H.
  rewrite formatinput_stages in H. cbv zeta in H.
  apply bind_Ok_inv in H. destruct H as (o1 & period & o2 & Hperiod & H & _).
  apply bind_Ok_inv in H. destruct H as (o3 & rsp & o4 & _ & H & _).
  apply bind_Ok_inv in H. destruct H as (o5 & indices & o6 & _ & H & _).
  apply bind_Ok_inv in H. destruct H as (o7 & signal & o8 & _ & H & _).
  inversion H; subst. cbn [fmt_ecg_period].
  unfold heart_period in Hperiod.
  destruct (filter (fun col => str_in "ECG_Rate" col) _) as [| col others].
  - destruct (filter (fun col => str_in "ECG_R_Peaks" col) _);
      [discriminate Hperiod | now apply lift_Ok_inv in Hperiod].
  - now apply lift_Ok_inv in Hperiod.
Qed.


End FormatterFacts.

Lemma formatinput_heart_period_witness :
  getitem example_table "ECG_Rate" = Ok [F64.Fin 0; F64.Fin 0].
Proof.
  exact (formatinput_heart_period unit example_rate example_ecg_rsp
           example_rsp_process example_sanitize
           (Frame example_table) None None 100 [] _ example_formatinput_run).
Defined.


(** ** The shape of the result *)

Section EntryPointShape.

Variable pyobject : Type.
Variable signal_interpolate :
  list Z -> list float64 -> nat -> result (list float64).
Variable signal_resample : list float64 -> Z -> Z -> result (list float64).
Variable signal_filter :
  list float64 -> Z -> option Q -> option Q ->
  option string -> option Z -> option Z -> result (list float64).
Variable signal_rate : option pyobject -> Z -> nat -> result (list float64).
Variable ecg_rsp : list float64 -> Z -> result (list float64).
Variable rsp_process : list float64 -> Z -> result DataFrame.
Variable _signal_formatpeaks_sanitize : DataFrame + pyobject -> result (list Z).

Local Abbreviation entry :=
  (ecg_rsa pyobject signal_interpolate signal_resample signal_filter
     signal_rate ecg_rsp rsp_process _signal_formatpeaks_sanitize).

Local Abbreviation body :=
  (ecg_rsa_body signal_interpolate signal_resample signal_filter).

Lemma body_frame (signals : DataFrame) (ecg_period : list float64)
  (rpeaks : list Z) (sampling_rate : Z) (out : list string)
  (result : rsa_output) :
  body signals ecg_period rpeaks sampling_rate true = (out, Ok result) ->
  exists trace : list float64, result = RSA_frame [("RSA_P2T", trace)].
Proof.
  unfold ecg_rsa_body. intros H.
  apply bind_Ok_inv in H. destruct H as (o1 & cycles & o2 & _ & H & _).
  apply bind_Ok_inv in H. destruct H as (o3 & marks & o4 & _ & H & _).
  apply bind_Ok_inv in H. destruct H as (o5 & first_onset & o6 & _ & H & _).
  apply bind_Ok_inv in H. destruct H as (o7 & [] & o8 & _ & H & _).
  apply bind_Ok_inv in H. destruct H as (o9 & rsa_p2t & o10 & _ & H & _).
  apply bind_Ok_inv in H. destruct H as (o11 & rsa_pb & o12 & _ & H & _).
  cbn [negb] in H. destruct rsa_p2t as [rsa | trace]; [discriminate H |].
  inversion H. now exists trace.
Qed.

(** X17: whatever the inputs and the collaborators, a call of the entry
    point that returns gives, in the non-continuous mode, a mapping with
    exactly the keys RSA_P2T_Mean, RSA_P2T_Mean_log, RSA_P2T_SD,
    RSA_P2T_NoRSA and RSA_PorgesBohrer in this order, the fourth holding an
    integer that is not negative and the others floats; in the continuous
    mode, a frame with the single column RSA_P2T. *)
Theorem ecg_rsa_output_shape :
  forall (ecg_signals : table_arg pyobject)
         (rsp_signals : option (table_arg pyobject)) (rpeaks : option pyobject)
         (sampling_rate : Z) (continuous : bool) (out : list string)
         (result : rsa_output),
    entry ecg_signals rsp_signals rpeaks sampling_rate continuous
      = (out, Ok result) ->
    if continuous
    then exists trace : list float64, result = RSA_frame [("RSA_P2T", trace)]
    else
      exists (mean mean_log sd pb : float64) (no_rsa : Z),
        result = RSA_dict [("RSA_P2T_Mean", PyFloat mean);
                           ("RSA_P2T_Mean_log", PyFloat mean_log);
                           ("RSA_P2T_SD", PyFloat sd);
                           ("RSA_P2T_NoRSA", PyInt no_rsa);
                           ("RSA_PorgesBohrer", PyFloat pb)] /\
        0 <= no_rsa.
Proof.
  intros ecg_signals rsp_signals rpeaks sampling_rate continuous out result H.
  unfold ecg_rsa in H. apply bind_Ok_inv in H.
  destruct H as (o1 & input & o2 & _ & H & _).
  destruct continuous.
  - exact (body_frame _ _ _ _ _ _ H).
  - apply body_dict in H. destruct H as (rsa_values & v & ->).
    rewrite p2t_summary_unfold.
    exists (nanmean rsa_values), (F64.log (nanmean rsa_values)),
           (nanstd rsa_values 1), v, (count_null rsa_values).
    split; [reflexivity |]. unfold count_null. lia.
Qed.

End EntryPointShape.

Lemma ecg_rsa_output_shape_witness :
  exists (mean mean_log sd pb : float64) (no_rsa : Z),
    RSA_dict
      (dict_update (dict_update [] (p2t_summary (rsa_values_of [0] [] 100)))
                   [("RSA_PorgesBohrer", PyFloat F64.NInf)])
    = RSA_dict [("RSA_P2T_Mean", PyFloat mean);
                ("RSA_P2T_Mean_log", PyFloat mean_log);
                ("RSA_P2T_SD", PyFloat sd);
                ("RSA_P2T_NoRSA", PyInt no_rsa);
                ("RSA_PorgesBohrer", PyFloat pb)] /\
    0 <= no_rsa.
Proof.
  exact (ecg_rsa_output_shape unit example_interpolate example_resample
           example_filter example_rate example_ecg_rsp example_rsp_process
           example_sanitize (Frame example_table) None None 100 false [] _
           example_run).
Defined.
